(** * The action router of [api/handle.js]

    A shallow embedding of the single HTTP entry point
    [handler(request)]: the seven action routes, the response envelope
    built by [jsonResponse], the CORS headers and the [try]/[catch]
    boundary, over an abstract object store.

    - JavaScript strings are sequences of UTF-16 code units ([jsstring]).
    - JavaScript values are the inductive [Value]; a parsed JSON document
      is a [Value] without [VUndefined] and [VFunction].
    - The platform (clock, [atob], [parseInt], [process.env]) and the
      collaborators ([put], [list], [del] of the blob store, [fetch]) are
      the fields of an environment [Env]; what the handler does to them
      is recorded in the [World] it threads through. *)

From Stdlib Require Import List NArith ZArith Bool String Ascii Lia Decimal DecimalPos.
Import ListNotations.

#[local] Set Warnings "-register-all".

Local Open Scope N_scope.

(** ** Strings *)

Module JsString.

(** One UTF-16 code unit. *)
Definition code_unit := N.

Definition jsstring := list code_unit.

(** A string literal of the source (ASCII). *)
Definition lit (s : string) : jsstring :=
  List.map N_of_ascii (list_ascii_of_string s).

Fixpoint eqb (a b : jsstring) : bool :=
  match a, b with
  | [], [] => true
  | x :: a', y :: b' => N.eqb x y && eqb a' b'
  | _, _ => false
  end.

(** The decimal digits of a non-negative integer, as in the template
    literal [`${Date.now()}`]. *)
Fixpoint of_uint (d : Decimal.uint) : jsstring :=
  match d with
  | Nil => []
  | D0 d => 48 :: of_uint d
  | D1 d => 49 :: of_uint d
  | D2 d => 50 :: of_uint d
  | D3 d => 51 :: of_uint d
  | D4 d => 52 :: of_uint d
  | D5 d => 53 :: of_uint d
  | D6 d => 54 :: of_uint d
  | D7 d => 55 :: of_uint d
  | D8 d => 56 :: of_uint d
  | D9 d => 57 :: of_uint d
  end.

Definition of_N (n : N) : jsstring := of_uint (N.to_uint n).

Definition is_digit (c : code_unit) : bool := (48 <=? c) && (c <=? 57).

Definition is_upper (c : code_unit) : bool := (65 <=? c) && (c <=? 90).

Definition is_lower (c : code_unit) : bool := (97 <=? c) && (c <=? 122).

(** The class [\w] of a regular expression without the [u] and [i]
    flags. *)
Definition is_word (c : code_unit) : bool :=
  is_lower c || is_upper c || is_digit c || (c =? 95).

(** What [.] refuses without the [s] flag: LF, CR, U+2028, U+2029. *)
Definition is_line_terminator (c : code_unit) : bool :=
  (c =? 10) || (c =? 13) || (c =? 8232) || (c =? 8233).

(** [strip_prefix p s] is the rest of [s] after the literal [p]. *)
Fixpoint strip_prefix (p s : jsstring) : option jsstring :=
  match p, s with
  | [], _ => Some s
  | x :: p', y :: s' => if x =? y then strip_prefix p' s' else None
  | _ :: _, [] => None
  end.

(** The longest prefix of [s] in the class [f], and what follows. *)
Fixpoint span (f : code_unit -> bool) (s : jsstring) : jsstring * jsstring :=
  match s with
  | [] => ([], [])
  | c :: s' =>
      if f c then let (a, b) := span f s' in (c :: a, b) else ([], s)
  end.

(** [s.split('/').pop()]: what follows the last ['/'] of [s], all of
    [s] when it has none. *)
Fixpoint last_segment_from (acc s : jsstring) : jsstring :=
  match s with
  | [] => acc
  | c :: s' => if c =? 47 then last_segment_from [] s'
               else last_segment_from (acc ++ [c]) s'
  end.

Definition last_segment (s : jsstring) : jsstring := last_segment_from [] s.

End JsString.

Import JsString.

(** ** Values *)

(** A JavaScript value as the handler meets it.  Objects are property
    lists in property order; a property is read at its first binding.
    Numbers are the integers ([count], [size], a limit) and [NaN]; a
    parsed document's non-integral numbers are outside the model. *)
Inductive Value : Type :=
| VUndefined
| VFunction
| VNull
| VBool (b : bool)
| VNum (n : Z)
| VNaN
| VStr (s : jsstring)
| VArr (items : list Value)
| VObj (props : list (jsstring * Value)).

Definition Props := list (jsstring * Value).

(** [ToBoolean]: what [!v], [v || w] and [if (v)] test. *)
Definition truthy (v : Value) : bool :=
  match v with
  | VUndefined | VNull | VNaN => false
  | VBool b => b
  | VNum n => negb (Z.eqb n 0)
  | VStr s => match s with [] => false | _ => true end
  | VFunction | VArr _ | VObj _ => true
  end.

(** [a || b] on values. *)
Definition or_else (a b : Value) : Value := if truthy a then a else b.

Fixpoint lookup (k : jsstring) (ps : Props) : Value :=
  match ps with
  | [] => VUndefined
  | (k', v) :: ps' => if eqb k k' then v else lookup k ps'
  end.

(** Assignment of a property in an object literal, after a spread: an
    existing property keeps its place and takes the new value, a new one
    goes last. *)
Fixpoint set_prop (k : jsstring) (v : Value) (ps : Props) : Props :=
  match ps with
  | [] => [(k, v)]
  | (k', v') :: ps' =>
      if eqb k k' then (k, v) :: ps' else (k', v') :: set_prop k v ps'
  end.

(** The index properties ["0"], ["1"], ... of an array or of a string. *)
Fixpoint indexed (i : N) (vs : list Value) : Props :=
  match vs with
  | [] => []
  | v :: vs' => (of_N i, v) :: indexed (N.succ i) vs'
  end.

(** [{...v}]: the own enumerable properties of [v]; none for [null],
    [undefined], a boolean or a number. *)
Definition spread (v : Value) : Props :=
  match v with
  | VObj ps => ps
  | VArr vs => indexed 0 vs
  | VStr s => indexed 0 (List.map (fun c => VStr [c]) s)
  | _ => []
  end.

(** What [JSON.stringify] leaves out of an object and writes [null] for
    in an array. *)
Definition unserializable (v : Value) : bool :=
  match v with
  | VUndefined | VFunction => true
  | _ => false
  end.

(** [JSON.stringify(v)], as the document its text denotes. *)
Fixpoint JSON_stringify (v : Value) : Value :=
  match v with
  | VNaN => VNull
  | VArr vs =>
      VArr (List.map (fun x => if unserializable x then VNull
                               else JSON_stringify x) vs)
  | VObj ps =>
      VObj ((fix members (ps : Props) : Props :=
               match ps with
               | [] => []
               | (k, x) :: ps' =>
                   if unserializable x then members ps'
                   else (k, JSON_stringify x) :: members ps'
               end) ps)
  | _ => v
  end.

(** ** Errors and results *)

(** A thrown exception: [error.message] (empty when it has none) and
    [error.stack]. *)
Record Error : Type := mkError {
  err_message : jsstring;
  err_stack : option jsstring
}.

Inductive Result (A : Type) : Type :=
| Ok (a : A)
| Throw (e : Error).

Arguments Ok {A} a.
Arguments Throw {A} e.

(** ** Requests and responses *)

Record Request : Type := mkRequest {
  req_method : jsstring;
  (** the query of [request.url], in order *)
  req_query : list (jsstring * jsstring);
  (** [request.body], the raw bytes *)
  req_body : list N;
  (** what [await request.json()] gives: the parsed document, or the
      exception of a body that is not JSON *)
  req_json : Result Value
}.

(** [searchParams.get(k)]: the first value of [k], or [null]. *)
Fixpoint searchParams_get (k : jsstring) (q : list (jsstring * jsstring))
  : option jsstring :=
  match q with
  | [] => None
  | (k', v) :: q' => if eqb k k' then Some v else searchParams_get k q'
  end.

(** [searchParams.get(k) || d] *)
Definition get_or (k : jsstring) (q : list (jsstring * jsstring))
  (d : jsstring) : jsstring :=
  match searchParams_get k q with
  | Some (c :: s) => c :: s
  | _ => d
  end.

Definition Headers := list (jsstring * jsstring).

Record Response : Type := mkResponse {
  res_status : N;
  res_headers : Headers;
  (** [None] for the [null] body; otherwise the document sent *)
  res_body : option Value
}.

(** The helper at the end of the file. *)
Definition jsonResponse (data : Value) (status : N) (headers : Headers)
  : Response :=
  mkResponse status headers (Some (JSON_stringify data)).

Definition corsHeaders : Headers :=
  [ (lit "Access-Control-Allow-Origin", lit "*");
    (lit "Access-Control-Allow-Methods", lit "GET, POST, DELETE, OPTIONS");
    (lit "Access-Control-Allow-Headers", lit "Content-Type");
    (lit "Content-Type", lit "application/json") ].

(** ** The blob store, the network and the platform *)

(** The third argument of [put]. *)
Record PutOptions : Type := mkPutOptions {
  access : jsstring;
  contentType : option jsstring;
  addRandomSuffix : option bool
}.

(** The second argument of [put]: the request's body stream, a
    [Uint8Array], or the text of [JSON.stringify(doc)]. *)
Inductive Content : Type :=
| Stream (bytes : list N)
| Bytes (bytes : list N)
| Json (doc : Value).

(** What [put] resolves to. *)
Record PutBlob : Type := mkPutBlob {
  pb_url : jsstring;
  pb_downloadUrl : option jsstring;
  pb_size : N;
  pb_pathname : jsstring
}.

(** One entry of [blobs] in what [list] resolves to. *)
Record ListBlob : Type := mkListBlob {
  lb_url : jsstring;
  lb_downloadUrl : option jsstring;
  lb_pathname : jsstring;
  lb_size : N;
  lb_uploadedAt : jsstring
}.

(** Everything outside the handler.  Each collaborator answers a call
    with a value or with the exception it rejects with. *)
Record Env : Type := mkEnv {
  (** the successive readings of the system clock, in milliseconds *)
  clock : nat -> N;
  (** [Date.prototype.toISOString] *)
  toISOString : N -> jsstring;
  (** [atob]: the binary string, or the exception of a bad payload *)
  atob : jsstring -> Result jsstring;
  (** [parseInt] *)
  parseInt : jsstring -> Value;
  (** [process.env.NODE_ENV] *)
  NODE_ENV : option jsstring;
  (** the [TypeError] of reading a property of [null] *)
  TypeError_null : jsstring -> Error;
  (** the [TypeError] of calling a method the value does not have *)
  TypeError_not_a_function : jsstring -> Error;
  (** [put], [list], [del] of [@vercel/blob] *)
  store_put : jsstring -> Content -> PutOptions -> Result PutBlob;
  store_list : jsstring -> Value -> Result (list ListBlob);
  store_del : jsstring -> Result unit;
  (** [await fetch(url)] followed by [await response.json()] *)
  net_fetch_json : jsstring -> Result Value
}.

(** A call the handler made to a collaborator. *)
Inductive Call : Type :=
| CallPut (pathname : jsstring) (content : Content) (options : PutOptions)
| CallList (prefix : jsstring) (limit : Value)
| CallDel (url : jsstring)
| CallFetch (url : jsstring).

(** What a run of the handler leaves behind: the calls it made, in
    order, the number of clock readings it took, and what it wrote with
    [console.error]. *)
Record World : Type := mkWorld {
  calls : list Call;
  ticks : nat;
  console : list Error
}.

(** ** The monad of the handler's body: state and exceptions *)

Definition M (A : Type) : Type := World -> Result A * World.

Definition ret {A} (a : A) : M A := fun w => (Ok a, w).

Definition throw {A} (e : Error) : M A := fun w => (Throw e, w).

Definition bind {A B} (m : M A) (k : A -> M B) : M B :=
  fun w =>
    match m w with
    | (Ok a, w') => k a w'
    | (Throw e, w') => (Throw e, w')
    end.

Declare Scope js_scope.
Delimit Scope js_scope with js.

Notation "x <- m ;; k" := (bind m (fun x => k))
  (at level 61, m at next level, right associativity) : js_scope.
Notation "m ;;; k" := (bind m (fun _ => k))
  (at level 61, right associativity) : js_scope.

Local Open Scope js_scope.

(** A settled promise, awaited. *)
Definition await {A} (r : Result A) : M A := fun w => (r, w).

(** [try { m } catch { return null }] *)
Definition try_or_null (m : M Value) : M Value :=
  fun w =>
    match m w with
    | (Ok v, w') => (Ok v, w')
    | (Throw _, w') => (Ok VNull, w')
    end.

(** [Promise.all(xs.map(async x => f x))], for an [f] that starts its
    call at once: the calls go out in the order of [xs] and the results
    come back in that order. *)
Fixpoint all_map {A B} (f : A -> M B) (xs : list A) : M (list B) :=
  match xs with
  | [] => ret []
  | x :: xs' => y <- f x ;; ys <- all_map f xs' ;; ret (y :: ys)
  end.

(** A sequence of [if (...) { ...; return r; }] statements: the first
    block that returns decides. *)
Definition or_next {A} (block : M (option A)) (rest : M A) : M A :=
  r <- block ;; match r with Some a => ret a | None => rest end.

Fixpoint first_return {A} (blocks : list (M (option A))) (rest : M A) : M A :=
  match blocks with
  | [] => rest
  | b :: blocks' => or_next b (first_return blocks' rest)
  end.

Definition record_call (c : Call) (w : World) : World :=
  mkWorld (calls w ++ [c]) (ticks w) (console w).

(** ** Small pieces of the routes *)

Definition opt_str (o : option jsstring) : Value :=
  match o with
  | Some s => VStr s
  | None => VUndefined
  end.

(** [f !== null] *)
Definition not_null (v : Value) : bool :=
  match v with
  | VNull => false
  | _ => true
  end.

(** The class [[^a-zA-Z0-9-_]] of the replacement in the [cc] route. *)
Definition unsafe_char (c : code_unit) : bool :=
  negb (is_lower c || is_upper c || is_digit c || (c =? 45) || (c =? 95)).

(** [name.replace(/[^a-zA-Z0-9-_]/g, '_')] on a string [name]. *)
Definition sanitize (name : jsstring) : jsstring :=
  List.map (fun c => if unsafe_char c then 95 else c) name.

(** [image.match(/^data:image\/\w+;base64,(.+)$/)] on a string [image]:
    the capture group, or [None] for [null].  After the literal prefix,
    [\w+] takes every word character that follows (the next character
    must be [';'], which is not one), and [(.+)$] is the non-empty rest,
    free of line terminators. *)
Definition match_data_url (image : jsstring) : option jsstring :=
  match strip_prefix (lit "data:image/") image with
  | None => None
  | Some rest =>
      match span is_word rest with
      | ([], _) => None
      | (_ :: _, rest') =>
          match strip_prefix (lit ";base64,") rest' with
          | Some (c :: payload) =>
              if forallb (fun x => negb (is_line_terminator x)) (c :: payload)
              then Some (c :: payload) else None
          | _ => None
          end
      end
  end.

(** [bytes[i] = binaryString.charCodeAt(i)] for every [i]: a
    [Uint8Array] keeps the low eight bits. *)
Definition to_Uint8Array (binaryString : jsstring) : list N :=
  List.map (fun c => c mod 256) binaryString.

Definition availableActions : Value :=
  VArr [ VStr (lit "upload"); VStr (lit "cc"); VStr (lit "save-enhanced");
         VStr (lit "list-uploads"); VStr (lit "delete-upload");
         VStr (lit "get-metadata"); VStr (lit "health") ].

(** [jsonResponse({ success: false, error: message }, status, corsHeaders)] *)
Definition failure (status : N) (message : string) : Response :=
  jsonResponse (VObj [ (lit "success", VBool false);
                       (lit "error", VStr (lit message)) ])
    status corsHeaders.

(** [v.k] on a value [v] other than [null], for the properties the
    handler reads of a parsed document ([name], [values], [image],
    [metadata]): an own property of an object, [Array.prototype.values]
    of an array, [undefined] of a string, number or boolean. *)
Definition property (v : Value) (k : string) : Value :=
  match v with
  | VObj ps => lookup (lit k) ps
  | VArr _ => if eqb (lit k) (lit "values") then VFunction else VUndefined
  | _ => VUndefined
  end.

(** [searchParams.get('action') || 'unknown'] *)
Definition action_of (request : Request) : jsstring :=
  get_or (lit "action") (req_query request) (lit "unknown").

(** ** The handler *)

Section Handler.

Variable env : Env.

(** [Date.now()] *)
Definition Date_now : M N :=
  fun w => (Ok (clock env (ticks w)),
            mkWorld (calls w) (S (ticks w)) (console w)).

(** [new Date().toISOString()] *)
Definition new_Date_toISOString : M jsstring :=
  t <- Date_now ;; ret (toISOString env t).

(** [await put(pathname, content, options)] *)
Definition put (pathname : jsstring) (content : Content)
  (options : PutOptions) : M PutBlob :=
  fun w => (store_put env pathname content options,
            record_call (CallPut pathname content options) w).

(** [await list({ prefix, limit })], the [blobs] of the answer *)
Definition list_blobs (prefix : jsstring) (limit : Value)
  : M (list ListBlob) :=
  fun w => (store_list env prefix limit,
            record_call (CallList prefix limit) w).

(** [await del(url)] *)
Definition del (url : jsstring) : M unit :=
  fun w => (store_del env url, record_call (CallDel url) w).

(** [await (await fetch(url)).json()] *)
Definition fetch_json (url : jsstring) : M Value :=
  fun w => (net_fetch_json env url, record_call (CallFetch url) w).

(** [v.k], or the [TypeError] of reading a property of [null]. *)
Definition member (v : Value) (k : string) : M Value :=
  match v with
  | VNull | VUndefined => throw (TypeError_null env (lit k))
  | _ => ret (property v k)
  end.

(** [v.f(...)] for a string method [f] ([replace], [match]) of a value
    of a parsed document: only a string has it. *)
Definition as_string (v : Value) (f : string) : M jsstring :=
  match v with
  | VStr s => ret s
  | _ => throw (TypeError_not_a_function env (lit f))
  end.

(** Route 1: Upload Image/Video *)
Definition route_upload (request : Request) : M (option Response) :=
  if eqb (action_of request) (lit "upload") then
    if negb (eqb (req_method request) (lit "POST")) then
      ret (Some (failure 405 "Method not allowed"))
    else
      filename <- match searchParams_get (lit "filename")
                          (req_query request) with
                  | Some (c :: s) => ret (c :: s)
                  | _ => t <- Date_now ;;
                         ret (lit "upload_" ++ of_N t ++ lit ".jpg")
                  end ;;
      blob <- put (lit "uploads/" ++ filename) (Stream (req_body request))
                (mkPutOptions (lit "public") None (Some true)) ;;
      uploadedAt <- new_Date_toISOString ;;
      ret (Some (jsonResponse
        (VObj [ (lit "success", VBool true);
                (lit "url", VStr (pb_url blob));
                (lit "downloadUrl", opt_str (pb_downloadUrl blob));
                (lit "size", VNum (Z.of_N (pb_size blob)));
                (lit "uploadedAt", VStr uploadedAt) ])
        200 corsHeaders))
  else ret None.

(** The callback of [blobs.map] in the [GET] branch of the [cc]
    route. *)
Definition cc_filter (blob : ListBlob) : M Value :=
  try_or_null (
    data <- fetch_json (lb_url blob) ;;
    name <- member data "name" ;;
    values <- member data "values" ;;
    ret (VObj [ (lit "name",
                  or_else name (VStr (last_segment (lb_pathname blob))));
                (lit "url", VStr (lb_url blob));
                (lit "uploadedAt", VStr (lb_uploadedAt blob));
                (lit "size", VNum (Z.of_N (lb_size blob)));
                (lit "values", or_else values data) ])).

(** Route 2: CC Filter Management.  A method other than [GET], [POST]
    and [DELETE] leaves the block without returning. *)
Definition route_cc (request : Request) : M (option Response) :=
  if eqb (action_of request) (lit "cc") then
    if eqb (req_method request) (lit "GET") then
      blobs <- list_blobs (lit "cc-filters/") (VNum 100) ;;
      filters <- all_map cc_filter blobs ;;
      ret (Some (jsonResponse
        (VObj [ (lit "success", VBool true);
                (lit "filters", VArr (filter not_null filters));
                (lit "count",
                  VNum (Z.of_nat (List.length (filter not_null filters)))) ])
        200 corsHeaders))
    else if eqb (req_method request) (lit "POST") then
      ccData <- await (req_json request) ;;
      name <- member ccData "name" ;;
      missing <- (if negb (truthy name) then ret true
                  else values <- member ccData "values" ;;
                       ret (negb (truthy values))) ;;
      if (missing : bool) then
        ret (Some (failure 400 "Missing name or values"))
      else
        name_string <- as_string name "replace" ;;
        let safeName := sanitize name_string in
        t <- Date_now ;;
        let filename :=
          lit "cc-filters/" ++ safeName ++ lit "_" ++ of_N t ++ lit ".json" in
        blob <- put filename (Json (JSON_stringify ccData))
                  (mkPutOptions (lit "public")
                     (Some (lit "application/json")) None) ;;
        uploadedAt <- new_Date_toISOString ;;
        ret (Some (jsonResponse
          (VObj [ (lit "success", VBool true);
                  (lit "url", VStr (pb_url blob));
                  (lit "name", name);
                  (lit "uploadedAt", VStr uploadedAt) ])
          200 corsHeaders))
    else if eqb (req_method request) (lit "DELETE") then
      match searchParams_get (lit "url") (req_query request) with
      | Some (c :: s) =>
          del (c :: s) ;;;
          ret (Some (jsonResponse
            (VObj [ (lit "success", VBool true);
                    (lit "message",
                      VStr (lit "CC filter deleted successfully")) ])
            200 corsHeaders))
      | _ => ret (Some (failure 400 "URL parameter required"))
      end
    else ret None
  else ret None.

(** Route 3: Save Enhanced Image *)
Definition route_save_enhanced (request : Request) : M (option Response) :=
  if eqb (action_of request) (lit "save-enhanced") then
    if negb (eqb (req_method request) (lit "POST")) then
      ret (Some (failure 405 "Method not allowed"))
    else
      body <- await (req_json request) ;;
      image <- member body "image" ;;
      metadata <- member body "metadata" ;;
      if negb (truthy image) then
        ret (Some (failure 400 "No image provided"))
      else
        image_string <- as_string image "match" ;;
        match match_data_url image_string with
        | None => ret (Some (failure 400 "Invalid image format"))
        | Some base64Data =>
            binaryString <- await (atob env base64Data) ;;
            let bytes := to_Uint8Array binaryString in
            t <- Date_now ;;
            let filename := lit "enhanced/enhanced_" ++ of_N t ++ lit ".jpg" in
            blob <- put filename (Bytes bytes)
                      (mkPutOptions (lit "public")
                         (Some (lit "image/jpeg")) None) ;;
            (if truthy metadata then
               t' <- Date_now ;;
               let metadataFilename :=
                 lit "metadata/meta_" ++ of_N t' ++ lit ".json" in
               timestamp <- new_Date_toISOString ;;
               put metadataFilename
                 (Json (JSON_stringify (VObj
                    (set_prop (lit "timestamp") (VStr timestamp)
                       (set_prop (lit "imageUrl") (VStr (pb_url blob))
                          (spread metadata))))))
                 (mkPutOptions (lit "public")
                    (Some (lit "application/json")) None) ;;;
               ret tt
             else ret tt) ;;;
            ret (Some (jsonResponse
              (VObj [ (lit "success", VBool true);
                      (lit "url", VStr (pb_url blob));
                      (lit "downloadUrl", opt_str (pb_downloadUrl blob));
                      (lit "size", VNum (Z.of_N (pb_size blob))) ])
              200 corsHeaders))
        end
  else ret None.

(** Route 4: List All Uploads *)
Definition route_list_uploads (request : Request) : M (option Response) :=
  if eqb (action_of request) (lit "list-uploads") then
    if negb (eqb (req_method request) (lit "GET")) then
      ret (Some (failure 405 "Method not allowed"))
    else
      let prefix := get_or (lit "prefix") (req_query request)
                      (lit "uploads/") in
      let limit := parseInt env
                     (get_or (lit "limit") (req_query request) (lit "50")) in
      blobs <- list_blobs prefix limit ;;
      ret (Some (jsonResponse
        (VObj [ (lit "success", VBool true);
                (lit "uploads",
                  VArr (List.map (fun blob =>
                    VObj [ (lit "url", VStr (lb_url blob));
                           (lit "downloadUrl",
                             opt_str (lb_downloadUrl blob));
                           (lit "pathname", VStr (lb_pathname blob));
                           (lit "size", VNum (Z.of_N (lb_size blob)));
                           (lit "uploadedAt", VStr (lb_uploadedAt blob)) ])
                    blobs));
                (lit "count", VNum (Z.of_nat (List.length blobs))) ])
        200 corsHeaders))
  else ret None.

(** Route 5: Delete Upload *)
Definition route_delete_upload (request : Request) : M (option Response) :=
  if eqb (action_of request) (lit "delete-upload") then
    if negb (eqb (req_method request) (lit "DELETE")) then
      ret (Some (failure 405 "Method not allowed"))
    else
      match searchParams_get (lit "url") (req_query request) with
      | Some (c :: s) =>
          del (c :: s) ;;;
          ret (Some (jsonResponse
            (VObj [ (lit "success", VBool true);
                    (lit "message",
                      VStr (lit "Upload deleted successfully")) ])
            200 corsHeaders))
      | _ => ret (Some (failure 400 "URL parameter required"))
      end
  else ret None.

(** The callback of [blobs.map] in the [get-metadata] route. *)
Definition metadata_entry (blob : ListBlob) : M Value :=
  try_or_null (
    data <- fetch_json (lb_url blob) ;;
    ret (VObj (set_prop (lit "uploadedAt") (VStr (lb_uploadedAt blob))
                 (set_prop (lit "metadataUrl") (VStr (lb_url blob))
                    (spread data))))).

(** Route 6: Get Metadata *)
Definition route_get_metadata (request : Request) : M (option Response) :=
  if eqb (action_of request) (lit "get-metadata") then
    if negb (eqb (req_method request) (lit "GET")) then
      ret (Some (failure 405 "Method not allowed"))
    else
      blobs <- list_blobs (lit "metadata/") (VNum 100) ;;
      metadata <- all_map metadata_entry blobs ;;
      ret (Some (jsonResponse
        (VObj [ (lit "success", VBool true);
                (lit "metadata", VArr (filter not_null metadata));
                (lit "count",
                  VNum (Z.of_nat (List.length (filter not_null metadata)))) ])
        200 corsHeaders))
  else ret None.

(** Route 7: Health Check *)
Definition route_health (request : Request) : M (option Response) :=
  if eqb (action_of request) (lit "health") then
    timestamp <- new_Date_toISOString ;;
    ret (Some (jsonResponse
      (VObj [ (lit "success", VBool true);
              (lit "status", VStr (lit "healthy"));
              (lit "timestamp", VStr timestamp);
              (lit "availableActions", availableActions) ])
      200 corsHeaders))
  else ret None.

(** Route not found *)
Definition not_found : Response :=
  jsonResponse
    (VObj [ (lit "success", VBool false);
            (lit "error", VStr (lit "Invalid action"));
            (lit "availableActions", availableActions) ])
    404 corsHeaders.

(** The body of the [try] block. *)
Definition try_block (request : Request) : M Response :=
  first_return
    [ route_upload request;
      route_cc request;
      route_save_enhanced request;
      route_list_uploads request;
      route_delete_upload request;
      route_get_metadata request;
      route_health request ]
    (ret not_found).

(** The response of the [catch] block. *)
Definition error_response (error : Error) : Response :=
  jsonResponse
    (VObj [ (lit "success", VBool false);
            (lit "error",
              VStr (match err_message error with
                    | [] => lit "Internal server error"
                    | m => m
                    end));
            (lit "stack",
              match NODE_ENV env with
              | Some mode =>
                  if eqb mode (lit "development")
                  then opt_str (err_stack error) else VUndefined
              | None => VUndefined
              end) ])
    500 corsHeaders.

(** [console.error('API Error:', error)] *)
Definition console_error (error : Error) (w : World) : World :=
  mkWorld (calls w) (ticks w) (console w ++ [error]).

(** [export default async function handler(request)] *)
Definition handler (request : Request) (w : World) : Response * World :=
  if eqb (req_method request) (lit "OPTIONS") then
    (mkResponse 200 corsHeaders None, w)
  else
    match try_block request w with
    | (Ok response, w') => (response, w')
    | (Throw error, w') => (error_response error, console_error error w')
    end.

End Handler.

(** ** A concrete platform and store

    An instance of [Env] to run the handler on: the WHATWG
    forgiving-base64 decoder for [atob], the proleptic Gregorian
    calendar for [toISOString], a store that answers every [put] with a
    URL built from the pathname. *)

Module Sample.

(** *** [atob] *)

Definition is_ascii_whitespace (c : code_unit) : bool :=
  (c =? 9) || (c =? 10) || (c =? 12) || (c =? 13) || (c =? 32).

Definition base64_value (c : code_unit) : option N :=
  if is_upper c then Some (c - 65)
  else if is_lower c then Some (c - 97 + 26)
  else if is_digit c then Some (c - 48 + 52)
  else if c =? 43 then Some 62
  else if c =? 47 then Some 63
  else None.

Fixpoint base64_values (s : jsstring) : option (list N) :=
  match s with
  | [] => Some []
  | c :: s' =>
      match base64_value c, base64_values s' with
      | Some v, Some vs => Some (v :: vs)
      | _, _ => None
      end
  end.

(** Four sextets give three bytes; a rest of three gives two, a rest
    of two gives one. *)
Fixpoint base64_bytes (vs : list N) : jsstring :=
  match vs with
  | a :: b :: c :: d :: rest =>
      let n := ((a * 64 + b) * 64 + c) * 64 + d in
      (n / 65536) :: ((n / 256) mod 256) :: (n mod 256) :: base64_bytes rest
  | [a; b; c] =>
      let n := ((a * 64 + b) * 64 + c) / 4 in [n / 256; n mod 256]
  | [a; b] => [(a * 64 + b) / 16]
  | _ => []
  end.

Definition strip_padding (s : jsstring) : jsstring :=
  if (N.of_nat (List.length s)) mod 4 =? 0 then
    match List.rev s with
    | 61 :: 61 :: r => List.rev r
    | 61 :: r => List.rev r
    | _ => s
    end
  else s.

Definition invalid_character : Error :=
  mkError (lit "The string to be decoded is not correctly encoded.")
          (Some (lit "InvalidCharacterError")).

Definition atob (data : jsstring) : Result jsstring :=
  let s := strip_padding (filter (fun c => negb (is_ascii_whitespace c)) data) in
  if (N.of_nat (List.length s)) mod 4 =? 1 then Throw invalid_character
  else match base64_values s with
       | Some vs => Ok (base64_bytes vs)
       | None => Throw invalid_character
       end.

(** *** [toISOString] *)

Definition pad (width : nat) (s : jsstring) : jsstring :=
  repeat 48 (width - List.length s)%nat ++ s.

(** Year, month and day of a day count from 1970-01-01. *)
Definition civil_from_days (days : N) : N * N * N :=
  let z := days + 719468 in
  let era := z / 146097 in
  let doe := z mod 146097 in
  let yoe := (doe - doe / 1460 + doe / 36524 - doe / 146096) / 365 in
  let doy := doe - (365 * yoe + yoe / 4 - yoe / 100) in
  let mp := (5 * doy + 2) / 153 in
  let d := doy - (153 * mp + 2) / 5 + 1 in
  let m := if mp <? 10 then mp + 3 else mp - 9 in
  let y := yoe + era * 400 + (if m <=? 2 then 1 else 0) in
  (y, m, d).

Definition toISOString (ms : N) : jsstring :=
  let '(y, m, d) := civil_from_days (ms / 86400000) in
  let r := ms mod 86400000 in
  pad 4 (of_N y) ++ lit "-" ++ pad 2 (of_N m) ++ lit "-" ++ pad 2 (of_N d)
    ++ lit "T" ++ pad 2 (of_N (r / 3600000))
    ++ lit ":" ++ pad 2 (of_N ((r / 60000) mod 60))
    ++ lit ":" ++ pad 2 (of_N ((r / 1000) mod 60))
    ++ lit "." ++ pad 3 (of_N (r mod 1000)) ++ lit "Z".

(** *** [parseInt], for decimal text *)

Fixpoint digits_value (acc : N) (s : jsstring) : N :=
  match s with
  | [] => acc
  | c :: s' => if is_digit c then digits_value (acc * 10 + (c - 48)) s'
               else acc
  end.

Definition parseInt (s : jsstring) : Value :=
  match s with
  | 45 :: c :: s' =>
      if is_digit c then VNum (- Z.of_N (digits_value 0 (c :: s')))
      else VNaN
  | c :: s' =>
      if is_digit c then VNum (Z.of_N (digits_value 0 (c :: s')))
      else VNaN
  | [] => VNaN
  end.

(** *** The store *)

Definition content_size (c : Content) : N :=
  match c with
  | Stream b | Bytes b => N.of_nat (List.length b)
  | Json _ => 0
  end.

Definition stored (pathname : jsstring) (content : Content) : PutBlob :=
  mkPutBlob (lit "https://store.example/" ++ pathname)
            (Some (lit "https://store.example/" ++ pathname
                     ++ lit "?download=1"))
            (content_size content) pathname.

Definition store_error : Error :=
  mkError (lit "Vercel Blob: the store is not reachable")
          (Some (lit "BlobError: the store is not reachable")).

(** A store that accepts every [put]. *)
Definition put_always (pathname : jsstring) (content : Content)
  (_ : PutOptions) : Result PutBlob :=
  Ok (stored pathname content).

(** A store that accepts every [put] but those under [refused]. *)
Definition put_unless (refused : jsstring) (pathname : jsstring)
  (content : Content) (_ : PutOptions) : Result PutBlob :=
  match strip_prefix refused pathname with
  | Some _ => Throw store_error
  | None => Ok (stored pathname content)
  end.

Definition env (mode : option jsstring)
  (put : jsstring -> Content -> PutOptions -> Result PutBlob)
  (blobs : list ListBlob) (documents : jsstring -> Result Value) : Env :=
  mkEnv
    (fun n => 1700000000000 + N.of_nat n)
    toISOString
    atob
    parseInt
    mode
    (fun k => mkError (lit "Cannot read properties of null (reading '" ++ k
                         ++ lit "')") (Some (lit "TypeError")))
    (fun f => mkError (lit "value." ++ f ++ lit " is not a function")
                      (Some (lit "TypeError")))
    put
    (fun _ _ => Ok blobs)
    (fun _ => Ok tt)
    documents.

Definition world0 : World := mkWorld [] 0 [].

Definition query (action : string) : list (jsstring * jsstring) :=
  [ (lit "action", lit action) ].

(** What [request.json()] rejects with when there is no body. *)
Definition syntax_error : Error :=
  mkError (lit "Unexpected end of JSON input")
          (Some (lit "SyntaxError: Unexpected end of JSON input")).

Definition no_json : Result Value := Throw syntax_error.

(** A request without a body. *)
Definition bare (method action : string) : Request :=
  mkRequest (lit method) (query action) [] no_json.

(** A request with a JSON body. *)
Definition with_json (method action : string) (doc : Value) : Request :=
  mkRequest (lit method) (query action) [] (Ok doc).

(** The platform with a store that accepts everything and holds
    nothing. *)
Definition quiet : Env :=
  env (Some (lit "production")) put_always []
    (fun _ => Throw store_error).

End Sample.

(** ** What the claims speak of *)

(** The seven names of [availableActions]. *)
Definition known_actions : list jsstring :=
  [ lit "upload"; lit "cc"; lit "save-enhanced"; lit "list-uploads";
    lit "delete-upload"; lit "get-metadata"; lit "health" ].

(** The seven-item list of the two responses that carry it. *)
Definition seven_actions : Value := VArr (List.map VStr known_actions).

(** The document of the "Route not found" response. *)
Definition invalid_action_body : Value :=
  VObj [ (lit "success", VBool false);
         (lit "error", VStr (lit "Invalid action"));
         (lit "availableActions", seven_actions) ].

(** The document of the health response at clock reading [t]. *)
Definition healthy_body (timestamp : jsstring) : Value :=
  VObj [ (lit "success", VBool true);
         (lit "status", VStr (lit "healthy"));
         (lit "timestamp", VStr timestamp);
         (lit "availableActions", seven_actions) ].

(** The document [{ success: false, error: message }]. *)
Definition error_body (message : string) : Value :=
  VObj [ (lit "success", VBool false); (lit "error", VStr (lit message)) ].

(** The message the [catch] block reports for an exception: its own,
    or "Internal server error" when it has none. *)
Definition reported_message (e : Error) : jsstring :=
  match err_message e with
  | [] => lit "Internal server error"
  | c :: m => c :: m
  end.

(** The document [{ success: true, url, downloadUrl, size }] of a stored
    image; [downloadUrl] is there when the store gave one. *)
Definition saved_body (blob : PutBlob) : Value :=
  VObj ([ (lit "success", VBool true); (lit "url", VStr (pb_url blob)) ]
        ++ match pb_downloadUrl blob with
           | Some d => [ (lit "downloadUrl", VStr d) ]
           | None => []
           end
        ++ [ (lit "size", VNum (Z.of_N (pb_size blob))) ]).

(** [headers.get(name)] on a response. *)
Fixpoint headers_get (name : jsstring) (h : Headers) : option jsstring :=
  match h with
  | [] => None
  | (k, v) :: h' => if eqb name k then Some v else headers_get name h'
  end.

(** The members [JSON.stringify] writes for the properties [ps]. *)
Fixpoint stringify_props (ps : Props) : Props :=
  match ps with
  | [] => []
  | (k, x) :: ps' =>
      if unserializable x then stringify_props ps'
      else (k, JSON_stringify x) :: stringify_props ps'
  end.

(** A value whose properties can be read: any but [null] and
    [undefined]. *)
Definition readable (v : Value) : Prop := v <> VNull /\ v <> VUndefined.

(** The class [[a-zA-Z0-9-_]]: letters, digits, hyphen, underscore. *)
Definition safe_char (c : code_unit) : bool :=
  is_lower c || is_upper c || is_digit c || (c =? 45) || (c =? 95).

(** [safe] is [name] with every character outside [[a-zA-Z0-9-_]]
    replaced by ['_'], the others kept. *)
Definition sanitized (name safe : jsstring) : Prop :=
  Forall2 (fun c c' => c' = if safe_char c then c else 95) name safe.

(** A non-empty run of decimal digits. *)
Definition digits (s : jsstring) : Prop :=
  s <> [] /\ Forall (fun c => is_digit c = true) s.

(** [image] is [data:image/<type>;base64,<payload>]: a non-empty
    [type] of word characters and a non-empty [payload] without line
    terminators. *)
Definition data_url (image type payload : jsstring) : Prop :=
  image = lit "data:image/" ++ type ++ lit ";base64," ++ payload
  /\ type <> []
  /\ Forall (fun c => is_word c = true) type
  /\ payload <> []
  /\ Forall (fun c => is_line_terminator c = false) payload.

(** [enhanced/enhanced_<t>.jpg] *)
Definition enhanced_path (t : N) : jsstring :=
  lit "enhanced/enhanced_" ++ of_N t ++ lit ".jpg".

(** [metadata/meta_<t>.json] *)
Definition metadata_path (t : N) : jsstring :=
  lit "metadata/meta_" ++ of_N t ++ lit ".json".

(** The options of a [put] of a JSON document. *)
Definition json_options : PutOptions :=
  mkPutOptions (lit "public") (Some (lit "application/json")) None.

(** The options of the [put] of an enhanced image. *)
Definition jpeg_options : PutOptions :=
  mkPutOptions (lit "public") (Some (lit "image/jpeg")) None.

(** The entry of a listed filter whose document is [data]: [name] is
    the document's, or the last segment of the pathname; [values] is
    the document's, or the whole document. *)
Definition filter_entry (blob : ListBlob) (data : Value) : Value :=
  VObj [ (lit "name",
           or_else (property data "name")
             (VStr (last_segment (lb_pathname blob))));
         (lit "url", VStr (lb_url blob));
         (lit "uploadedAt", VStr (lb_uploadedAt blob));
         (lit "size", VNum (Z.of_N (lb_size blob)));
         (lit "values", or_else (property data "values") data) ].

(** What a listed blob resolves to: its entry when its document is
    fetched, parsed and can be read; nothing otherwise. *)
Definition resolve (env : Env) (blob : ListBlob) : option Value :=
  match net_fetch_json env (lb_url blob) with
  | Ok VNull | Ok VUndefined | Throw _ => None
  | Ok data => Some (filter_entry blob data)
  end.

(** Whether a listed blob resolves. *)
Definition resolves (env : Env) (blob : ListBlob) : bool :=
  match resolve env blob with
  | Some _ => true
  | None => false
  end.

(** The entries of the blobs that resolve, in the order of the
    listing. *)
Definition resolved (env : Env) (blobs : list ListBlob) : list Value :=
  flat_map (fun blob => match resolve env blob with
                        | Some entry => [entry]
                        | None => []
                        end) blobs.

(** One more reading of the clock. *)
Definition tick (w : World) : World :=
  mkWorld (calls w) (S (ticks w)) (console w).

(** The world after the calls [cs] and [n] more readings of the
    clock. *)
Definition after (cs : list Call) (n : nat) (w : World) : World :=
  mkWorld (calls w ++ cs) (n + ticks w) (console w).

(** The world after the [catch] block has logged [e]. *)
Definition logged (e : Error) (w : World) : World :=
  mkWorld (calls w) (ticks w) (console w ++ [e]).

(** The calls of a listing followed by one fetch per blob. *)
Definition list_then_fetch (prefix : jsstring) (blobs : list ListBlob)
  : list Call :=
  CallList prefix (VNum 100)
    :: List.map (fun blob => CallFetch (lb_url blob)) blobs.

(** Every value a computation returns satisfies [Q]. *)
Definition post {A} (Q : A -> Prop) (m : M A) : Prop :=
  forall w a w', m w = (Ok a, w') -> Q a.

(** A block that returns a response returns one with the CORS headers. *)
Definition cors_block (block : M (option Response)) : Prop :=
  post (fun o => forall r, o = Some r -> res_headers r = corsHeaders) block.

(** ** Scenarios *)

Module Sample_builds.

(** A build that is neither production nor development. *)
Definition test_build : Env :=
  Sample.env (Some (lit "test")) Sample.put_always []
    (fun _ => Throw Sample.store_error).

(** A development build. *)
Definition development_build : Env :=
  Sample.env (Some (lit "development")) Sample.put_always []
    (fun _ => Throw Sample.store_error).

End Sample_builds.

Module Sample_documents.

(** [{"name":"My Filter!","values":{"a":1}}] *)
Definition my_filter : Value :=
  VObj [ (lit "name", VStr (lit "My Filter!"));
         (lit "values", VObj [ (lit "a", VNum 1) ]) ].

(** [{"name":"warm","values":0}] *)
Definition zero_values : Value :=
  VObj [ (lit "name", VStr (lit "warm")); (lit "values", VNum 0) ].

(** The document of [my_filter] with the empty string for [name]. *)
Definition empty_name : Value :=
  VObj [ (lit "name", VStr []); (lit "values", VObj [ (lit "a", VNum 1) ]) ].

(** [{"image":"data:image/jpeg;base64,/9j/4A=="}] *)
Definition image_only : Value :=
  VObj [ (lit "image", VStr (lit "data:image/jpeg;base64,/9j/4A==")) ].

(** [{"image":"data:image/jpeg;base64,/9j/4A==","metadata":{"filter":"warm"}}] *)
Definition image_and_metadata : Value :=
  VObj [ (lit "image", VStr (lit "data:image/jpeg;base64,/9j/4A=="));
         (lit "metadata", VObj [ (lit "filter", VStr (lit "warm")) ]) ].

End Sample_documents.

Module Sample_stores.

(** A store that rejects every [put] under [metadata/]. *)
Definition no_metadata : Env :=
  Sample.env (Some (lit "production")) (Sample.put_unless (lit "metadata/"))
    [] (fun _ => Throw Sample.store_error).

End Sample_stores.

Module Sample_listing.

Definition warm : ListBlob :=
  mkListBlob (lit "https://store.example/cc-filters/warm_1.json") None
    (lit "cc-filters/warm_1.json") 40 (lit "2023-11-14T22:13:20.000Z").

Definition lost : ListBlob :=
  mkListBlob (lit "https://store.example/cc-filters/lost_2.json") None
    (lit "cc-filters/lost_2.json") 40 (lit "2023-11-14T22:13:21.000Z").

(** Only the document of [warm] can be fetched. *)
Definition documents (url : jsstring) : Result Value :=
  if eqb url (lb_url warm)
  then Ok (VObj [ (lit "name", VStr (lit "warm"));
                  (lit "values", VObj [ (lit "a", VNum 1) ]) ])
  else Throw (mkError (lit "fetch failed") None).

Definition store : Env :=
  Sample.env (Some (lit "production")) Sample.put_always
    [warm; lost] documents.

End Sample_listing.

(** ** What every run of the handler keeps *)

(** The HTTP method under which the handler makes a call: [put] under
    POST, [del] under DELETE, [list] and [fetch] under GET. *)
Definition verb_allows (method : jsstring) (c : Call) : bool :=
  match c with
  | CallPut _ _ _ => eqb method (lit "POST")
  | CallDel _ => eqb method (lit "DELETE")
  | CallList _ _ | CallFetch _ => eqb method (lit "GET")
  end.

(** The envelope of a JSON response: [success: true] with status 200,
    or [success: false] and an [error] string with one of the
    [failures]. *)
Definition envelope (failures : list N) (r : Response) : Prop :=
  exists doc,
    res_body r = Some doc
    /\ ((res_status r = 200 /\ property doc "success" = VBool true)
        \/ (In (res_status r) failures
            /\ property doc "success" = VBool false
            /\ exists message, property doc "error" = VStr message)).

(** A run of [m] from any world writes nothing to the console, reads
    the clock forward, makes only calls that [allowed] accepts, and
    returns only values that satisfy [Q]. *)
Definition run_spec {A} (allowed : Call -> bool) (Q : A -> Prop) (m : M A)
  : Prop :=
  forall w,
    console (snd (m w)) = console w
    /\ (ticks w <= ticks (snd (m w)))%nat
    /\ (exists cs, calls (snd (m w)) = calls w ++ cs
                   /\ forallb allowed cs = true)
    /\ match fst (m w) with
       | Ok a => Q a
       | Throw _ => True
       end.

(** What a block of the [try] block may return under [method]. *)
Definition block_spec (method : jsstring) (block : M (option Response))
  : Prop :=
  run_spec (verb_allows method)
    (fun o => forall r, o = Some r -> envelope [400; 404; 405] r) block.

(** ** Documents and options of the other routes *)

(** The options of the [put] of an upload. *)
Definition upload_options : PutOptions :=
  mkPutOptions (lit "public") None (Some true).

(** The document [{ success: true, url, downloadUrl, size, uploadedAt }]
    of an upload; [downloadUrl] is there when the store gave one. *)
Definition uploaded_body (blob : PutBlob) (uploadedAt : jsstring) : Value :=
  VObj ([ (lit "success", VBool true); (lit "url", VStr (pb_url blob)) ]
        ++ match pb_downloadUrl blob with
           | Some d => [ (lit "downloadUrl", VStr d) ]
           | None => []
           end
        ++ [ (lit "size", VNum (Z.of_N (pb_size blob)));
             (lit "uploadedAt", VStr uploadedAt) ]).


(** The entry of a listed metadata document [data]: its own
    properties, then [metadataUrl] and [uploadedAt] of the blob. *)
Definition metadata_of (blob : ListBlob) (data : Value) : Value :=
  VObj (set_prop (lit "uploadedAt") (VStr (lb_uploadedAt blob))
          (set_prop (lit "metadataUrl") (VStr (lb_url blob)) (spread data))).

(** Whether the document of a blob can be fetched and parsed. *)
Definition fetchable (env : Env) (blob : ListBlob) : bool :=
  match net_fetch_json env (lb_url blob) with
  | Ok _ => true
  | Throw _ => false
  end.

(** The entries of the blobs whose document can be fetched, in the
    order of the listing. *)
Definition described (env : Env) (blobs : list ListBlob) : list Value :=
  flat_map (fun blob => match net_fetch_json env (lb_url blob) with
                        | Ok data => [metadata_of blob data]
                        | Throw _ => []
                        end) blobs.

(** The entry of a listed upload. *)
Definition upload_entry (blob : ListBlob) : Value :=
  VObj ([ (lit "url", VStr (lb_url blob)) ]
        ++ match lb_downloadUrl blob with
           | Some d => [ (lit "downloadUrl", VStr d) ]
           | None => []
           end
        ++ [ (lit "pathname", VStr (lb_pathname blob));
             (lit "size", VNum (Z.of_N (lb_size blob)));
             (lit "uploadedAt", VStr (lb_uploadedAt blob)) ]).

(** [value] is what a query parameter that was [given] (or not)
    stands for: the parameter when it is there and not empty, the
    [default] otherwise. *)
Definition chosen (given : option jsstring) (default value : jsstring)
  : Prop :=
  (given = Some value /\ value <> [])
  \/ ((given = None \/ given = Some []) /\ value = default).

(** No ['/'] in [s]. *)
Definition no_slash (s : jsstring) : Prop := Forall (fun c => c <> 47) s.

(** ** More scenarios *)

Module Sample_requests.


(** [POST ?action=upload] with a three-byte body. *)
Definition upload_unnamed : Request :=
  mkRequest (lit "POST") (Sample.query "upload") [137; 80; 78] Sample.no_json.


(** [GET ?action=list-uploads&prefix=cc-filters/&limit=5] *)
Definition list_filters : Request :=
  mkRequest (lit "GET")
    [ (lit "action", lit "list-uploads"); (lit "prefix", lit "cc-filters/");
      (lit "limit", lit "5") ]
    [] Sample.no_json.



(** A store that rejects every [put] under [enhanced/]. *)
Definition no_images : Env :=
  Sample.env (Some (lit "production")) (Sample.put_unless (lit "enhanced/"))
    [] (fun _ => Throw Sample.store_error).

(** A filter document without a [name] and with falsy [values]. *)
Definition nameless : Value := VObj [ (lit "values", VNum 0) ].

(** A store whose every document is [nameless]. *)
Definition nameless_store : Env :=
  Sample.env (Some (lit "production")) Sample.put_always
    [Sample_listing.warm] (fun _ => Ok nameless).

End Sample_requests.

(** * Properties *)

Arguments lit : simpl never.

(** Comparisons of two literals of the source are computed. *)
Ltac literals :=
  repeat match goal with
         | |- context [eqb (lit ?a) (lit ?b)] =>
             let v := eval vm_compute in (eqb (lit a) (lit b)) in
             change (eqb (lit a) (lit b)) with v
         end.

Ltac crunch := repeat first [ progress literals | progress cbn ].

(** ** String equality *)

Lemma eqb_spec (a b : jsstring) : reflect (a = b) (eqb a b).
Proof.
  revert b; induction a as [|x a IH]; intros [|y b]; simpl;
    try (constructor; congruence).
  destruct (N.eqb_spec x y) as [->|Hxy]; simpl.
  - destruct (IH b) as [->|Hab]; constructor; congruence.
  - constructor; congruence.
Qed.

Lemma eqb_refl (a : jsstring) : eqb a a = true.
Proof. destruct (eqb_spec a a); congruence. Qed.

Lemma eqb_eq (a b : jsstring) : eqb a b = true <-> a = b.
Proof. destruct (eqb_spec a b); split; congruence. Qed.

Lemma eqb_neq (a b : jsstring) : eqb a b = false <-> a <> b.
Proof. destruct (eqb_spec a b); split; congruence. Qed.

(** ** Falling through the routes *)

Section Routing.

Variable env : Env.
Variable request : Request.

Lemma or_next_none {A} (block : M (option A)) (rest : M A) (w : World) :
  block w = (Ok None, w) -> or_next block rest w = rest w.
Proof. intros H; unfold or_next, bind; now rewrite H. Qed.

Lemma or_next_some {A} (block : M (option A)) (rest : M A) (w w' : World)
  (a : A) :
  block w = (Ok (Some a), w') -> or_next block rest w = (Ok a, w').
Proof. intros H; unfold or_next, bind; now rewrite H. Qed.

Lemma or_next_throw {A} (block : M (option A)) (rest : M A) (w w' : World)
  (e : Error) :
  block w = (Throw e, w') -> or_next block rest w = (Throw e, w').
Proof. intros H; unfold or_next, bind; now rewrite H. Qed.

Lemma route_upload_skip w :
  eqb (action_of request) (lit "upload") = false ->
  route_upload env request w = (Ok None, w).
Proof. intros H; unfold route_upload; now rewrite H. Qed.

Lemma route_cc_skip w :
  eqb (action_of request) (lit "cc") = false ->
  route_cc env request w = (Ok None, w).
Proof. intros H; unfold route_cc; now rewrite H. Qed.

Lemma route_save_enhanced_skip w :
  eqb (action_of request) (lit "save-enhanced") = false ->
  route_save_enhanced env request w = (Ok None, w).
Proof. intros H; unfold route_save_enhanced; now rewrite H. Qed.

Lemma route_list_uploads_skip w :
  eqb (action_of request) (lit "list-uploads") = false ->
  route_list_uploads env request w = (Ok None, w).
Proof. intros H; unfold route_list_uploads; now rewrite H. Qed.

Lemma route_delete_upload_skip w :
  eqb (action_of request) (lit "delete-upload") = false ->
  route_delete_upload env request w = (Ok None, w).
Proof. intros H; unfold route_delete_upload; now rewrite H. Qed.

Lemma route_get_metadata_skip w :
  eqb (action_of request) (lit "get-metadata") = false ->
  route_get_metadata env request w = (Ok None, w).
Proof. intros H; unfold route_get_metadata; now rewrite H. Qed.

Lemma route_health_skip w :
  eqb (action_of request) (lit "health") = false ->
  route_health env request w = (Ok None, w).
Proof. intros H; unfold route_health; now rewrite H. Qed.

(** The [cc] block is left without a [return] by a method that is none
    of its three. *)
Lemma route_cc_falls_through w :
  eqb (req_method request) (lit "GET") = false ->
  eqb (req_method request) (lit "POST") = false ->
  eqb (req_method request) (lit "DELETE") = false ->
  route_cc env request w = (Ok None, w).
Proof.
  intros HG HP HD; unfold route_cc.
  rewrite HG, HP, HD; now destruct (eqb (action_of request) (lit "cc")).
Qed.

End Routing.

Lemma unknown_action_eqb (a : jsstring) :
  ~ In a known_actions ->
  eqb a (lit "upload") = false /\ eqb a (lit "cc") = false /\
  eqb a (lit "save-enhanced") = false /\ eqb a (lit "list-uploads") = false /\
  eqb a (lit "delete-upload") = false /\ eqb a (lit "get-metadata") = false /\
  eqb a (lit "health") = false.
Proof.
  intros H; repeat split; apply eqb_neq; intros ->; apply H;
    unfold known_actions; simpl; tauto.
Qed.

(** With no block returning, the [try] block ends at "Route not found". *)
Lemma try_block_not_found env request w :
  route_upload env request w = (Ok None, w) ->
  route_cc env request w = (Ok None, w) ->
  route_save_enhanced env request w = (Ok None, w) ->
  route_list_uploads env request w = (Ok None, w) ->
  route_delete_upload env request w = (Ok None, w) ->
  route_get_metadata env request w = (Ok None, w) ->
  route_health env request w = (Ok None, w) ->
  try_block env request w = (Ok not_found, w).
Proof.
  intros H1 H2 H3 H4 H5 H6 H7; unfold try_block; cbn [first_return].
  rewrite (or_next_none _ _ _ H1), (or_next_none _ _ _ H2),
    (or_next_none _ _ _ H3), (or_next_none _ _ _ H4),
    (or_next_none _ _ _ H5), (or_next_none _ _ _ H6),
    (or_next_none _ _ _ H7).
  reflexivity.
Qed.

Lemma not_found_eq :
  not_found = mkResponse 404 corsHeaders (Some invalid_action_body).
Proof. reflexivity. Qed.

Lemma failure_eq (status : N) (message : string) :
  failure status message
  = mkResponse status corsHeaders (Some (error_body message)).
Proof. reflexivity. Qed.

(** A request that is not a preflight gets what the [try] block
    returns. *)
Lemma handler_returns env request w response w' :
  req_method request <> lit "OPTIONS" ->
  try_block env request w = (Ok response, w') ->
  handler env request w = (response, w').
Proof.
  intros Hm Ht; unfold handler.
  apply eqb_neq in Hm; rewrite Hm, Ht; reflexivity.
Qed.

(** ** The preflight *)

(** C6: a request with method OPTIONS, whatever its action, query and
    body, is answered with status 200, the [null] body and the headers
    [Access-Control-Allow-Origin: *],
    [Access-Control-Allow-Methods: GET, POST, DELETE, OPTIONS],
    [Access-Control-Allow-Headers: Content-Type] (and
    [Content-Type: application/json]), and the world is left as it was:
    no call to the store or the network, no reading of the clock,
    nothing logged. *)
Theorem options_preflight (env : Env) (request : Request) (w : World) :
  req_method request = lit "OPTIONS" ->
  handler env request w
  = (mkResponse 200
       [ (lit "Access-Control-Allow-Origin", lit "*");
         (lit "Access-Control-Allow-Methods",
           lit "GET, POST, DELETE, OPTIONS");
         (lit "Access-Control-Allow-Headers", lit "Content-Type");
         (lit "Content-Type", lit "application/json") ]
       None,
     w)
  /\ headers_get (lit "Access-Control-Allow-Origin")
       (res_headers (fst (handler env request w))) = Some (lit "*")
  /\ headers_get (lit "Access-Control-Allow-Methods")
       (res_headers (fst (handler env request w)))
     = Some (lit "GET, POST, DELETE, OPTIONS")
  /\ headers_get (lit "Access-Control-Allow-Headers")
       (res_headers (fst (handler env request w)))
     = Some (lit "Content-Type").
Proof.
  intros H; unfold handler; rewrite H, eqb_refl.
  repeat split; reflexivity.
Qed.

Lemma options_preflight_witness :
  handler Sample.quiet (Sample.bare "OPTIONS" "upload") Sample.world0
  = (mkResponse 200
       [ (lit "Access-Control-Allow-Origin", lit "*");
         (lit "Access-Control-Allow-Methods",
           lit "GET, POST, DELETE, OPTIONS");
         (lit "Access-Control-Allow-Headers", lit "Content-Type");
         (lit "Content-Type", lit "application/json") ]
       None,
     Sample.world0)
  /\ headers_get (lit "Access-Control-Allow-Origin")
       (res_headers (fst (handler Sample.quiet
                            (Sample.bare "OPTIONS" "upload") Sample.world0)))
     = Some (lit "*")
  /\ headers_get (lit "Access-Control-Allow-Methods")
       (res_headers (fst (handler Sample.quiet
                            (Sample.bare "OPTIONS" "upload") Sample.world0)))
     = Some (lit "GET, POST, DELETE, OPTIONS")
  /\ headers_get (lit "Access-Control-Allow-Headers")
       (res_headers (fst (handler Sample.quiet
                            (Sample.bare "OPTIONS" "upload") Sample.world0)))
     = Some (lit "Content-Type").
Proof. apply options_preflight; reflexivity. Defined.

(** ** Unknown actions and the health probe *)

(** C3: a request that is not a preflight and whose action is none of
    the seven names is answered with status 404 and the document
    [{success:false, error:"Invalid action", availableActions}], the
    world untouched; a query without [action] is such a request; and a
    request for [health] is answered with status 200 and
    [{success:true, status:"healthy", timestamp, availableActions}],
    with the same seven names. *)
Theorem unknown_action_and_health (env : Env) (request : Request) (w : World) :
  req_method request <> lit "OPTIONS" ->
  (~ In (action_of request) known_actions ->
   handler env request w
   = (mkResponse 404 corsHeaders (Some invalid_action_body), w))
  /\ (searchParams_get (lit "action") (req_query request) = None ->
      handler env request w
      = (mkResponse 404 corsHeaders (Some invalid_action_body), w))
  /\ (action_of request = lit "health" ->
      handler env request w
      = (mkResponse 200 corsHeaders
           (Some (healthy_body (toISOString env (clock env (ticks w))))),
         tick w)).
Proof.
  intros Hm.
  assert (H404 : ~ In (action_of request) known_actions ->
                 handler env request w
                 = (mkResponse 404 corsHeaders (Some invalid_action_body), w)).
  { intros Ha. apply unknown_action_eqb in Ha.
    destruct Ha as (H1 & H2 & H3 & H4 & H5 & H6 & H7).
    apply handler_returns; [exact Hm|].
    rewrite <- not_found_eq.
    apply try_block_not_found;
      auto using route_upload_skip, route_cc_skip, route_save_enhanced_skip,
        route_list_uploads_skip, route_delete_upload_skip,
        route_get_metadata_skip, route_health_skip. }
  split; [exact H404|split].
  - intros Hq. apply H404. unfold action_of, get_or; rewrite Hq.
    vm_compute. intuition discriminate.
  - intros Ha. apply handler_returns; [exact Hm|].
    unfold try_block; cbn [first_return].
    rewrite or_next_none by (apply route_upload_skip; rewrite Ha; reflexivity).
    rewrite or_next_none by (apply route_cc_skip; rewrite Ha; reflexivity).
    rewrite or_next_none
      by (apply route_save_enhanced_skip; rewrite Ha; reflexivity).
    rewrite or_next_none
      by (apply route_list_uploads_skip; rewrite Ha; reflexivity).
    rewrite or_next_none
      by (apply route_delete_upload_skip; rewrite Ha; reflexivity).
    rewrite or_next_none
      by (apply route_get_metadata_skip; rewrite Ha; reflexivity).
    apply or_next_some. unfold route_health; rewrite Ha.
    reflexivity.
Qed.

Lemma unknown_action_and_health_witness :
  handler Sample.quiet (Sample.bare "GET" "unknown-action") Sample.world0
  = (mkResponse 404 corsHeaders (Some invalid_action_body), Sample.world0)
  /\ handler Sample.quiet (mkRequest (lit "GET") [] [] Sample.no_json)
       Sample.world0
     = (mkResponse 404 corsHeaders (Some invalid_action_body), Sample.world0)
  /\ handler Sample.quiet (Sample.bare "GET" "health") Sample.world0
     = (mkResponse 200 corsHeaders
          (Some (healthy_body (lit "2023-11-14T22:13:20.000Z"))),
        tick Sample.world0).
Proof.
  split; [|split].
  - refine (proj1 (unknown_action_and_health Sample.quiet
                     (Sample.bare "GET" "unknown-action") Sample.world0 _) _).
    + vm_compute; discriminate.
    + simpl; intros H;
        repeat (destruct H as [H|H]; [vm_compute in H; discriminate H|]);
        exact H.
  - refine (proj1 (proj2 (unknown_action_and_health Sample.quiet
                     (mkRequest (lit "GET") [] [] Sample.no_json)
                     Sample.world0 _)) _).
    + vm_compute; discriminate.
    + reflexivity.
  - refine (proj2 (proj2 (unknown_action_and_health Sample.quiet
                     (Sample.bare "GET" "health") Sample.world0 _)) _).
    + vm_compute; discriminate.
    + reflexivity.
Defined.

(** ** Methods the action does not support *)

(** X4: the five routes that check their method ([upload],
    [save-enhanced], [list-uploads], [delete-upload], [get-metadata])
    answer any other one but OPTIONS with status 405 and
    [{success:false, error:"Method not allowed"}], and leave the world
    as it was. *)
Lemma method_not_allowed (env : Env) (request : Request) (w : World)
  (action expected : string) :
  In (action, expected)
    [ ("upload", "POST"); ("save-enhanced", "POST"); ("list-uploads", "GET");
      ("delete-upload", "DELETE"); ("get-metadata", "GET") ]%string ->
  action_of request = lit action ->
  req_method request <> lit "OPTIONS" ->
  req_method request <> lit expected ->
  handler env request w
  = (mkResponse 405 corsHeaders (Some (error_body "Method not allowed")), w).
Proof.
  intros Hin Ha Ho Hm. apply eqb_neq in Hm.
  apply handler_returns; [exact Ho|].
  unfold try_block; cbn [first_return].
  simpl in Hin.
  destruct Hin as [E|[E|[E|[E|[E|[]]]]]];
    injection E as <- <-;
    repeat (first
      [ rewrite or_next_none
          by (first [ apply route_upload_skip | apply route_cc_skip
                    | apply route_save_enhanced_skip
                    | apply route_list_uploads_skip
                    | apply route_delete_upload_skip
                    | apply route_get_metadata_skip ];
              rewrite Ha; reflexivity) ]);
    apply or_next_some;
    unfold route_upload, route_save_enhanced, route_list_uploads,
      route_delete_upload, route_get_metadata;
    rewrite Ha; literals; cbv iota; rewrite Hm; reflexivity.
Qed.

(** In the [cc] route a method that is none of GET, POST, DELETE (and
    OPTIONS) reaches "Route not found". *)
Lemma cc_other_method (env : Env) (request : Request) (w : World) :
  action_of request = lit "cc" ->
  req_method request <> lit "OPTIONS" ->
  req_method request <> lit "GET" ->
  req_method request <> lit "POST" ->
  req_method request <> lit "DELETE" ->
  handler env request w
  = (mkResponse 404 corsHeaders (Some invalid_action_body), w).
Proof.
  intros Ha Ho HG HP HD.
  apply eqb_neq in HG, HP, HD.
  apply handler_returns; [exact Ho|].
  rewrite <- not_found_eq.
  apply try_block_not_found;
    first [ apply route_cc_falls_through; assumption
          | apply route_upload_skip | apply route_save_enhanced_skip
          | apply route_list_uploads_skip | apply route_delete_upload_skip
          | apply route_get_metadata_skip | apply route_health_skip ];
    rewrite Ha; reflexivity.
Qed.

(** C1, at [PUT ?action=cc]: the method is not one the [cc] action
    supports, and the answer is not 405 "Method not allowed" but 404
    "Invalid action", with [cc] among the available actions it lists. *)
Theorem cc_put_is_invalid_action (env : Env) (w : World) :
  handler env (Sample.bare "PUT" "cc") w
  = (mkResponse 404 corsHeaders (Some invalid_action_body), w)
  /\ In (lit "cc") known_actions.
Proof.
  split.
  - apply cc_other_method; vm_compute; try reflexivity; discriminate.
  - vm_compute; tauto.
Qed.

(** ** The CORS headers *)

Lemma post_ret {A} (Q : A -> Prop) (a : A) : Q a -> post Q (ret a).
Proof. intros H w a' w' E; inversion E; subst; exact H. Qed.

Lemma post_throw {A} (Q : A -> Prop) (e : Error) : post Q (throw e).
Proof. intros w a w' E; discriminate E. Qed.

Lemma post_bind {A B} (Q : B -> Prop) (m : M A) (k : A -> M B) :
  (forall a, post Q (k a)) -> post Q (bind m k).
Proof.
  intros H w b w' E; unfold bind in E.
  destruct (m w) as [[a|e] w1]; [|discriminate E].
  exact (H a w1 b w' E).
Qed.

Lemma post_or_next {A} (Q : A -> Prop) (block : M (option A)) (rest : M A) :
  post (fun o => forall a, o = Some a -> Q a) block ->
  post Q rest -> post Q (or_next block rest).
Proof.
  intros Hb Hr w a w' E; unfold or_next, bind in E.
  destruct (block w) as [[[a'|]|e] w1] eqn:Eb; try discriminate E.
  - inversion E; subst. exact (Hb w (Some a) w' Eb a eq_refl).
  - exact (Hr w1 a w' E).
Qed.

(** One step through the body of a route. *)
Ltac cors_step :=
  match goal with
  | |- post _ (ret (Some _)) =>
      apply post_ret; intros ? E; inversion E; reflexivity
  | |- post _ (ret None) => apply post_ret; intros ? E; discriminate E
  | |- post _ (throw _) => apply post_throw
  | |- post _ (bind _ _) => apply post_bind; intros
  | |- post _ (if ?c then _ else _) => destruct c
  | |- post _ (match ?x with _ => _ end) => destruct x
  end.

Ltac cors_route := unfold cors_block; cbv zeta; repeat cors_step.

Lemma route_upload_cors env request : cors_block (route_upload env request).
Proof. unfold route_upload; cors_route. Qed.

Lemma route_cc_cors env request : cors_block (route_cc env request).
Proof. unfold route_cc; cors_route. Qed.

Lemma route_save_enhanced_cors env request :
  cors_block (route_save_enhanced env request).
Proof. unfold route_save_enhanced; cors_route. Qed.

Lemma route_list_uploads_cors env request :
  cors_block (route_list_uploads env request).
Proof. unfold route_list_uploads; cors_route. Qed.

Lemma route_delete_upload_cors env request :
  cors_block (route_delete_upload env request).
Proof. unfold route_delete_upload; cors_route. Qed.

Lemma route_get_metadata_cors env request :
  cors_block (route_get_metadata env request).
Proof. unfold route_get_metadata; cors_route. Qed.

Lemma route_health_cors env request : cors_block (route_health env request).
Proof. unfold route_health; cors_route. Qed.

Lemma try_block_cors env request :
  post (fun r => res_headers r = corsHeaders) (try_block env request).
Proof.
  unfold try_block; cbn [first_return].
  repeat (apply post_or_next;
          [ first [ apply route_upload_cors | apply route_cc_cors
                  | apply route_save_enhanced_cors
                  | apply route_list_uploads_cors
                  | apply route_delete_upload_cors
                  | apply route_get_metadata_cors | apply route_health_cors ]
          | ]).
  apply post_ret; reflexivity.
Qed.

(** C7: whatever the request and whatever the collaborators answer, the
    response of the handler (a success, a validation failure, the 404
    fallback, the response of the [catch] block, the preflight) carries
    [Access-Control-Allow-Origin: *],
    [Access-Control-Allow-Methods: GET, POST, DELETE, OPTIONS] and
    [Access-Control-Allow-Headers: Content-Type]. *)
Theorem cors_on_every_response (env : Env) (request : Request) (w : World) :
  let headers := res_headers (fst (handler env request w)) in
  headers_get (lit "Access-Control-Allow-Origin") headers = Some (lit "*")
  /\ headers_get (lit "Access-Control-Allow-Methods") headers
     = Some (lit "GET, POST, DELETE, OPTIONS")
  /\ headers_get (lit "Access-Control-Allow-Headers") headers
     = Some (lit "Content-Type").
Proof.
  assert (H : res_headers (fst (handler env request w)) = corsHeaders).
  { unfold handler.
    destruct (eqb (req_method request) (lit "OPTIONS")); [reflexivity|].
    destruct (try_block env request w) as [[r|e] w'] eqn:E; [|reflexivity].
    exact (try_block_cors env request w r w' E). }
  cbv zeta; rewrite H; repeat split; reflexivity.
Qed.

(** ** The [catch] block *)

(** A body that is not JSON makes the [POST] branch of the [cc] route
    throw what [request.json()] rejects with. *)
Lemma cc_post_bad_json_throws (env : Env) (request : Request) (w : World)
  (e : Error) :
  action_of request = lit "cc" ->
  req_method request = lit "POST" ->
  req_json request = Throw e ->
  try_block env request w = (Throw e, w).
Proof.
  intros Ha Hm Hj. unfold try_block; cbn [first_return].
  rewrite or_next_none by (apply route_upload_skip; rewrite Ha; reflexivity).
  apply or_next_throw.
  unfold route_cc, bind, await; rewrite Ha, Hm, Hj; reflexivity.
Qed.

(** A [list] that the store rejects makes the [list-uploads] route throw
    the store's exception. *)
Lemma list_uploads_store_failure_throws (env : Env) (request : Request)
  (w : World) (e : Error) :
  action_of request = lit "list-uploads" ->
  req_method request = lit "GET" ->
  (forall prefix limit, store_list env prefix limit = Throw e) ->
  exists w', try_block env request w = (Throw e, w').
Proof.
  intros Ha Hm Hl. unfold try_block; cbn [first_return].
  rewrite or_next_none by (apply route_upload_skip; rewrite Ha; reflexivity).
  rewrite or_next_none by (apply route_cc_skip; rewrite Ha; reflexivity).
  rewrite or_next_none
    by (apply route_save_enhanced_skip; rewrite Ha; reflexivity).
  eexists. apply or_next_throw.
  unfold route_list_uploads, bind, list_blobs.
  rewrite Ha, Hm, Hl; reflexivity.
Qed.

(** An exception that leaves the [try] block is logged and answered by
    the [catch] block. *)
Lemma handler_catches (env : Env) (request : Request) (w w' : World)
  (e : Error) :
  req_method request <> lit "OPTIONS" ->
  try_block env request w = (Throw e, w') ->
  handler env request w = (error_response env e, logged e w').
Proof.
  intros Hm Ht. apply eqb_neq in Hm.
  unfold handler; rewrite Hm, Ht; reflexivity.
Qed.

(** The document of the [catch] block. *)
Lemma error_response_document (env : Env) (e : Error) :
  exists doc,
    error_response env e = mkResponse 500 corsHeaders (Some doc)
    /\ property doc "success" = VBool false
    /\ property doc "error" = VStr (reported_message e)
    /\ (forall stack,
          property doc "stack" = VStr stack
          <-> NODE_ENV env = Some (lit "development")
              /\ err_stack e = Some stack)
    /\ (property doc "stack" = VUndefined
        <-> NODE_ENV env <> Some (lit "development") \/ err_stack e = None).
Proof.
  unfold error_response, jsonResponse.
  destruct e as [[|c m] stack];
    (destruct (NODE_ENV env) as [mode|];
     [ destruct (eqb_spec mode (lit "development")) as [->|Hne];
       [ destruct stack as [st|] | ] | ]);
    crunch; (eexists; split; [reflexivity|]); crunch;
    intuition congruence.
Qed.

(** C8, as the code has it: an exception that leaves the [try] block is
    logged and answered with status 500 and a document with
    [success: false] and [error] the exception's message ("Internal
    server error" when the message is empty); the document has a
    [stack] exactly when [NODE_ENV] is "development" and the exception
    has a stack, which it then carries. *)
Theorem exception_is_500 (env : Env) (request : Request) (w w' : World)
  (e : Error) :
  req_method request <> lit "OPTIONS" ->
  try_block env request w = (Throw e, w') ->
  exists doc,
    handler env request w
    = (mkResponse 500 corsHeaders (Some doc), logged e w')
    /\ property doc "success" = VBool false
    /\ property doc "error" = VStr (reported_message e)
    /\ (forall stack,
          property doc "stack" = VStr stack
          <-> NODE_ENV env = Some (lit "development")
              /\ err_stack e = Some stack)
    /\ (property doc "stack" = VUndefined
        <-> NODE_ENV env <> Some (lit "development") \/ err_stack e = None).
Proof.
  intros Hm Ht.
  destruct (error_response_document env e) as (doc & Hd & Hprops).
  exists doc; split; [|exact Hprops].
  rewrite <- Hd. now apply handler_catches.
Qed.

Lemma exception_is_500_witness :
  exists doc,
    handler Sample_builds.development_build (Sample.bare "POST" "cc")
      Sample.world0
    = (mkResponse 500 corsHeaders (Some doc),
       logged Sample.syntax_error Sample.world0)
    /\ property doc "success" = VBool false
    /\ property doc "error" = VStr (lit "Unexpected end of JSON input")
    /\ property doc "stack"
       = VStr (lit "SyntaxError: Unexpected end of JSON input").
Proof.
  destruct (exception_is_500 Sample_builds.development_build
              (Sample.bare "POST" "cc") Sample.world0 Sample.world0
              Sample.syntax_error)
    as (doc & Hh & Hs & He & Hst & _).
  - vm_compute; discriminate.
  - reflexivity.
  - exists doc; repeat split; try assumption.
    apply Hst; split; reflexivity.
Defined.

(** C8 as stated fails in a build that is not production and not
    development: the exception of a [POST ?action=cc] without a body has
    a stack, [NODE_ENV] is "test", and the 500 response has no [stack]. *)
Lemma no_stack_in_a_test_build :
  NODE_ENV Sample_builds.test_build <> Some (lit "production")
  /\ err_stack Sample.syntax_error <> None
  /\ try_block Sample_builds.test_build (Sample.bare "POST" "cc")
       Sample.world0
     = (Throw Sample.syntax_error, Sample.world0)
  /\ handler Sample_builds.test_build (Sample.bare "POST" "cc") Sample.world0
     = (mkResponse 500 corsHeaders
          (Some (error_body "Unexpected end of JSON input")),
        logged Sample.syntax_error Sample.world0).
Proof.
  repeat split; try reflexivity; vm_compute; discriminate.
Qed.

(** ** The [POST] branch of the [cc] route *)

Lemma member_readable env (v : Value) (k : string) :
  readable v -> member env v k = ret (property v k).
Proof. intros [H1 H2]; destruct v; try reflexivity; contradiction. Qed.

Lemma post_is_not_options (request : Request) :
  req_method request = lit "POST" -> req_method request <> lit "OPTIONS".
Proof. intros ->; vm_compute; discriminate. Qed.

(** A [name] or [values] that is not truthy is answered with 400, and
    nothing is stored. *)
Lemma cc_post_missing (env : Env) (request : Request) (w : World)
  (ccData : Value) :
  action_of request = lit "cc" ->
  req_method request = lit "POST" ->
  req_json request = Ok ccData ->
  readable ccData ->
  truthy (property ccData "name") = false
  \/ truthy (property ccData "values") = false ->
  handler env request w
  = (mkResponse 400 corsHeaders (Some (error_body "Missing name or values")),
     w).
Proof.
  intros Ha Hm Hj Hr Hf.
  apply handler_returns; [now apply post_is_not_options|].
  unfold try_block; cbn [first_return].
  rewrite or_next_none by (apply route_upload_skip; rewrite Ha; reflexivity).
  apply or_next_some.
  unfold route_cc; rewrite Ha, Hm; literals; cbv iota.
  unfold bind at 1; unfold await; rewrite Hj.
  rewrite !member_readable by exact Hr.
  unfold bind, ret.
  destruct (truthy (property ccData "name")); cbn.
  - destruct Hf as [Hf|Hf]; [discriminate Hf|]. rewrite Hf; reflexivity.
  - reflexivity.
Qed.

Lemma sanitize_sanitized (name : jsstring) : sanitized name (sanitize name).
Proof.
  unfold sanitized, sanitize.
  induction name as [|c name IH]; cbn [List.map]; constructor; [|exact IH].
  unfold unsafe_char, safe_char.
  now destruct (is_lower c || is_upper c || is_digit c || (c =? 45)
                || (c =? 95))%bool.
Qed.

Lemma of_uint_digits (d : Decimal.uint) :
  Forall (fun c => is_digit c = true) (of_uint d).
Proof. induction d; cbn [of_uint]; constructor; auto. Qed.

Lemma of_uint_nonnil (d : Decimal.uint) : d <> Nil -> of_uint d <> [].
Proof. destruct d; cbn [of_uint]; congruence. Qed.

Lemma of_N_digits (n : N) : digits (of_N n).
Proof.
  split; [|apply of_uint_digits].
  apply of_uint_nonnil. destruct n as [|p]; [discriminate|].
  apply Unsigned.to_uint_nonnil.
Qed.

(** A string [name] and a truthy [values]: the document is stored under
    [cc-filters/] and the answer is 200. *)
Lemma cc_post_stores (env : Env) (request : Request) (w : World)
  (ccData : Value) (name : jsstring) (blob : PutBlob) :
  action_of request = lit "cc" ->
  req_method request = lit "POST" ->
  req_json request = Ok ccData ->
  readable ccData ->
  property ccData "name" = VStr name ->
  name <> [] ->
  truthy (property ccData "values") = true ->
  let pathname :=
    lit "cc-filters/" ++ sanitize name ++ lit "_"
      ++ of_N (clock env (ticks w)) ++ lit ".json" in
  store_put env pathname (Json (JSON_stringify ccData)) json_options
  = Ok blob ->
  handler env request w
  = (mkResponse 200 corsHeaders
       (Some (VObj [ (lit "success", VBool true);
                     (lit "url", VStr (pb_url blob));
                     (lit "name", VStr name);
                     (lit "uploadedAt",
                       VStr (toISOString env (clock env (S (ticks w))))) ])),
     after [CallPut pathname (Json (JSON_stringify ccData)) json_options]
       2 w).
Proof.
  intros Ha Hm Hj Hr Hn Hne Hv pathname Hput.
  apply handler_returns; [now apply post_is_not_options|].
  unfold try_block; cbn [first_return].
  rewrite or_next_none by (apply route_upload_skip; rewrite Ha; reflexivity).
  apply or_next_some.
  unfold route_cc; rewrite Ha, Hm; literals; cbv iota.
  unfold bind at 1; unfold await; rewrite Hj.
  rewrite !member_readable by exact Hr.
  rewrite Hn. destruct name as [|c name]; [contradiction|].
  unfold bind, ret; cbn [truthy negb].
  rewrite Hv; cbn [negb as_string].
  unfold ret, Date_now, put, record_call; cbn [calls ticks console].
  fold pathname. unfold json_options in Hput; rewrite Hput.
  reflexivity.
Qed.

(** C4, as the code has it: for a [POST ?action=cc] with a JSON body
    other than [null],
    a [name] or [values] that is missing or falsy is answered with 400
    "Missing name or values"; with a truthy [values] and a non-empty
    string [name], the body is put at
    [cc-filters/<safeName>_<timestamp>.json], [safeName] being [name]
    with every character outside [[a-zA-Z0-9-_]] replaced by ['_'] and
    [timestamp] the digits of the clock reading, and when the store
    accepts it the answer is 200 [{success:true, url, name, uploadedAt}]
    with [name] as it was sent. *)
Theorem cc_post_contract (env : Env) (request : Request) (w : World)
  (ccData : Value) :
  action_of request = lit "cc" ->
  req_method request = lit "POST" ->
  req_json request = Ok ccData ->
  readable ccData ->
  (truthy (property ccData "name") = false
   \/ truthy (property ccData "values") = false ->
   handler env request w
   = (mkResponse 400 corsHeaders
        (Some (error_body "Missing name or values")), w))
  /\ (forall name,
        property ccData "name" = VStr name ->
        truthy (property ccData "name") = true ->
        truthy (property ccData "values") = true ->
        let safeName := sanitize name in
        let timestamp := of_N (clock env (ticks w)) in
        let pathname :=
          lit "cc-filters/" ++ safeName ++ lit "_" ++ timestamp
            ++ lit ".json" in
        sanitized name safeName
        /\ digits timestamp
        /\ forall blob,
             store_put env pathname (Json (JSON_stringify ccData))
               json_options = Ok blob ->
             handler env request w
             = (mkResponse 200 corsHeaders
                  (Some (VObj [ (lit "success", VBool true);
                                (lit "url", VStr (pb_url blob));
                                (lit "name", VStr name);
                                (lit "uploadedAt",
                                  VStr (toISOString env
                                          (clock env (S (ticks w))))) ])),
                after [CallPut pathname (Json (JSON_stringify ccData))
                         json_options] 2 w)).
Proof.
  intros Ha Hm Hj Hr; split.
  - now apply cc_post_missing.
  - intros name Hn Ht Hv safeName timestamp pathname.
    split; [apply sanitize_sanitized|].
    split; [apply of_N_digits|].
    intros blob Hput.
    apply cc_post_stores; try assumption.
    rewrite Hn in Ht; intros ->; discriminate Ht.
Qed.

Lemma cc_post_contract_witness :
  handler Sample.quiet
    (Sample.with_json "POST" "cc" Sample_documents.my_filter) Sample.world0
  = (mkResponse 200 corsHeaders
       (Some (VObj [ (lit "success", VBool true);
                     (lit "url",
                       VStr (lit "https://store.example/cc-filters/My_Filter__1700000000000.json"));
                     (lit "name", VStr (lit "My Filter!"));
                     (lit "uploadedAt",
                       VStr (lit "2023-11-14T22:13:20.001Z")) ])),
     after [CallPut (lit "cc-filters/My_Filter__1700000000000.json")
              (Json Sample_documents.my_filter) json_options] 2
       Sample.world0).
Proof.
  refine (proj2 (proj2 (proj2 (cc_post_contract Sample.quiet
            (Sample.with_json "POST" "cc" Sample_documents.my_filter)
            Sample.world0 Sample_documents.my_filter _ _ _ _)
          (lit "My Filter!") _ _ _))
          (Sample.stored (lit "cc-filters/My_Filter__1700000000000.json")
             (Json Sample_documents.my_filter)) _);
    try reflexivity.
  split; discriminate.
Defined.

(** C4 as stated fails on [{"name":"warm","values":0}]: the body has
    both [name] and [values], and the answer is 400 with nothing
    stored. *)
Lemma cc_post_rejects_zero_values :
  property Sample_documents.zero_values "name" = VStr (lit "warm")
  /\ property Sample_documents.zero_values "values" = VNum 0
  /\ handler Sample.quiet
       (Sample.with_json "POST" "cc" Sample_documents.zero_values)
       Sample.world0
     = (mkResponse 400 corsHeaders
          (Some (error_body "Missing name or values")), Sample.world0).
Proof. repeat split. Qed.

(** C10: for a [POST ?action=cc] with a JSON body, the check of [name]
    and [values] is a truthiness check: whenever one of them is falsy,
    present or not ([0], [false], [null], the empty string), the answer
    is 400 "Missing name or values" and nothing is stored. *)
Theorem cc_post_checks_truthiness (env : Env) (request : Request) (w : World)
  (ccData : Value) :
  action_of request = lit "cc" ->
  req_method request = lit "POST" ->
  req_json request = Ok ccData ->
  readable ccData ->
  (exists v, In v [property ccData "name"; property ccData "values"]
             /\ In v [VUndefined; VNum 0; VBool false; VNull; VStr []]) ->
  handler env request w
  = (mkResponse 400 corsHeaders (Some (error_body "Missing name or values")),
     w).
Proof.
  intros Ha Hm Hj Hr (v & Hin & Hf).
  apply cc_post_missing with (ccData := ccData); try assumption.
  assert (Hv : truthy v = false).
  { simpl in Hf.
    destruct Hf as [<-|[<-|[<-|[<-|[<-|[]]]]]]; reflexivity. }
  simpl in Hin. destruct Hin as [<-|[<-|[]]]; auto.
Qed.

Lemma cc_post_checks_truthiness_witness :
  handler Sample.quiet
    (Sample.with_json "POST" "cc" Sample_documents.zero_values) Sample.world0
  = (mkResponse 400 corsHeaders (Some (error_body "Missing name or values")),
     Sample.world0)
  /\ handler Sample.quiet
       (Sample.with_json "POST" "cc" Sample_documents.empty_name)
       Sample.world0
     = (mkResponse 400 corsHeaders
          (Some (error_body "Missing name or values")), Sample.world0).
Proof.
  split.
  - apply (cc_post_checks_truthiness Sample.quiet _ Sample.world0
             Sample_documents.zero_values); try reflexivity.
    + split; discriminate.
    + exists (VNum 0); split; simpl; tauto.
  - apply (cc_post_checks_truthiness Sample.quiet _ Sample.world0
             Sample_documents.empty_name); try reflexivity.
    + split; discriminate.
    + exists (VStr []); split; simpl; tauto.
Defined.

(** ** Properties of an object and of its serialization *)

Lemma JSON_stringify_obj (ps : Props) :
  JSON_stringify (VObj ps) = VObj (stringify_props ps).
Proof.
  cbn [JSON_stringify]; f_equal.
Qed.

Lemma lookup_set_prop_same (k : jsstring) (v : Value) (ps : Props) :
  lookup k (set_prop k v ps) = v.
Proof.
  induction ps as [|[k' v'] ps IH]; cbn [set_prop lookup].
  - now rewrite eqb_refl.
  - destruct (eqb k k') eqn:E; cbn [lookup].
    + now rewrite eqb_refl.
    + now rewrite E.
Qed.

Lemma lookup_set_prop_other (k k' : jsstring) (v : Value) (ps : Props) :
  eqb k k' = false -> lookup k (set_prop k' v ps) = lookup k ps.
Proof.
  intros Hk. induction ps as [|[k2 v2] ps IH]; cbn [set_prop lookup].
  - now rewrite Hk.
  - destruct (eqb k' k2) eqn:E; cbn [lookup].
    + apply eqb_eq in E; subst k2. now rewrite Hk.
    + now rewrite IH.
Qed.

(** A property whose value is written is read back from the
    serialization. *)
Lemma lookup_stringify_props (k : jsstring) (ps : Props) :
  unserializable (lookup k ps) = false ->
  lookup k (stringify_props ps) = JSON_stringify (lookup k ps).
Proof.
  induction ps as [|[k' x] ps IH]; cbn [lookup stringify_props].
  - discriminate.
  - destruct (eqb k k') eqn:E.
    + intros Hx; rewrite Hx; cbn [lookup]; now rewrite E.
    + intros Hx. destruct (unserializable x); [now apply IH|].
      cbn [lookup]; rewrite E; now apply IH.
Qed.

(** ** The [save-enhanced] route *)

Lemma match_data_url_nonempty (image payload : jsstring) :
  match_data_url image = Some payload -> image <> [].
Proof. intros H ->; vm_compute in H; discriminate H. Qed.

Lemma strip_prefix_app (p r : jsstring) : strip_prefix p (p ++ r) = Some r.
Proof.
  induction p as [|c p IH]; cbn [strip_prefix List.app]; [reflexivity|].
  now rewrite N.eqb_refl.
Qed.

Lemma strip_prefix_some (p s r : jsstring) :
  strip_prefix p s = Some r -> s = p ++ r.
Proof.
  revert s; induction p as [|c p IH]; intros [|d s]; cbn [strip_prefix List.app];
    try congruence.
  destruct (N.eqb_spec c d) as [->|]; [|discriminate].
  intros H; now rewrite (IH s H).
Qed.

Lemma span_app (f : code_unit -> bool) (a : jsstring) (c : code_unit)
  (r : jsstring) :
  Forall (fun x => f x = true) a -> f c = false ->
  span f (a ++ c :: r) = (a, c :: r).
Proof.
  intros Ha Hc; induction Ha as [|x a Hx _ IH]; cbn [span List.app].
  - now rewrite Hc.
  - now rewrite Hx, IH.
Qed.

Lemma span_some (f : code_unit -> bool) (s a b : jsstring) :
  span f s = (a, b) -> s = a ++ b /\ Forall (fun x => f x = true) a.
Proof.
  revert a b; induction s as [|c s IH]; intros a b; cbn [span].
  - intros E; inversion E; auto.
  - destruct (f c) eqn:Hc.
    + destruct (span f s) as [a' b'] eqn:Es. intros E; inversion E; subst.
      destruct (IH a' b eq_refl) as [-> Ha]. auto.
    + intros E; inversion E; auto.
Qed.

(** The matcher and the shape of a data URL agree: the one [type] the
    pattern can take is the whole run of word characters. *)
Lemma match_data_url_spec (image payload : jsstring) :
  match_data_url image = Some payload
  <-> exists type, data_url image type payload.
Proof.
  unfold match_data_url, data_url; split.
  - destruct (strip_prefix (lit "data:image/") image) as [rest|] eqn:E1;
      [|discriminate].
    apply strip_prefix_some in E1.
    destruct (span is_word rest) as [[|t type] rest'] eqn:E2; [discriminate|].
    apply span_some in E2; destruct E2 as [-> Hw].
    destruct (strip_prefix (lit ";base64,") rest') as [[|c p]|] eqn:E3;
      try discriminate.
    apply strip_prefix_some in E3.
    destruct (forallb _ (c :: p)) eqn:E4; [|discriminate].
    intros E; inversion E; subst.
    exists (t :: type); repeat split; try assumption; try discriminate.
    apply Forall_forall; intros x Hx.
    rewrite forallb_forall in E4. specialize (E4 x Hx).
    now destruct (is_line_terminator x).
  - intros (type & -> & Ht & Hw & Hp & Hl).
    rewrite strip_prefix_app.
    change (lit ";base64,") with (59 :: lit "base64,").
    cbn [List.app]; rewrite span_app by (assumption || reflexivity).
    destruct type as [|t type]; [contradiction|].
    change (59 :: lit "base64," ++ payload) with (lit ";base64," ++ payload).
    rewrite strip_prefix_app.
    destruct payload as [|c p]; [contradiction|].
    assert (E : forallb (fun x => negb (is_line_terminator x)) (c :: p)
                = true).
    { apply forallb_forall; intros x Hx.
      rewrite Forall_forall in Hl. now rewrite (Hl x Hx). }
    now rewrite E.
Qed.

(** The route up to the [put] of the image: what is left is the
    metadata side write and the answer. *)
Lemma save_enhanced_image_put (env : Env) (request : Request) (w : World)
  (body : Value) (image payload binary : jsstring) (blob : PutBlob) :
  action_of request = lit "save-enhanced" ->
  req_method request = lit "POST" ->
  req_json request = Ok body ->
  readable body ->
  property body "image" = VStr image ->
  match_data_url image = Some payload ->
  atob env payload = Ok binary ->
  store_put env (enhanced_path (clock env (ticks w)))
    (Bytes (to_Uint8Array binary)) jpeg_options = Ok blob ->
  route_save_enhanced env request w
  = ((if truthy (property body "metadata") then
        t' <- Date_now env ;;
        timestamp <- new_Date_toISOString env ;;
        put env (metadata_path t')
          (Json (JSON_stringify (VObj
             (set_prop (lit "timestamp") (VStr timestamp)
                (set_prop (lit "imageUrl") (VStr (pb_url blob))
                   (spread (property body "metadata")))))))
          json_options ;;;
        ret tt
      else ret tt) ;;;
     ret (Some (jsonResponse
       (VObj [ (lit "success", VBool true);
               (lit "url", VStr (pb_url blob));
               (lit "downloadUrl", opt_str (pb_downloadUrl blob));
               (lit "size", VNum (Z.of_N (pb_size blob))) ])
       200 corsHeaders)))%js
      (after [CallPut (enhanced_path (clock env (ticks w)))
                (Bytes (to_Uint8Array binary)) jpeg_options] 1 w).
Proof.
  intros Ha Hm Hj Hr Hi Hmatch Hatob Hput.
  pose proof (match_data_url_nonempty _ _ Hmatch) as Hne.
  unfold route_save_enhanced; rewrite Ha, Hm; literals; cbv iota.
  cbn [negb].
  unfold bind at 1; unfold await at 1; rewrite Hj.
  rewrite !member_readable by exact Hr.
  unfold bind at 1; unfold ret at 1.
  unfold bind at 1; unfold ret at 1.
  rewrite Hi. destruct image as [|c image]; [contradiction|].
  cbn [truthy negb as_string].
  unfold bind at 1; unfold ret at 1.
  rewrite Hmatch.
  unfold bind at 1; unfold await at 1; rewrite Hatob.
  unfold bind at 1; unfold Date_now at 1.
  unfold bind at 1; unfold put at 1.
  unfold enhanced_path, jpeg_options in Hput.
  cbn [ticks calls console record_call]; rewrite Hput.
  reflexivity.
Qed.

Lemma jsonResponse_saved (blob : PutBlob) :
  jsonResponse
    (VObj [ (lit "success", VBool true);
            (lit "url", VStr (pb_url blob));
            (lit "downloadUrl", opt_str (pb_downloadUrl blob));
            (lit "size", VNum (Z.of_N (pb_size blob))) ])
    200 corsHeaders
  = mkResponse 200 corsHeaders (Some (saved_body blob)).
Proof.
  unfold jsonResponse, saved_body.
  destruct (pb_downloadUrl blob); reflexivity.
Qed.

Lemma try_block_save_enhanced (env : Env) (request : Request) (w : World) :
  action_of request = lit "save-enhanced" ->
  try_block env request w
  = or_next (route_save_enhanced env request)
      (first_return
         [ route_list_uploads env request; route_delete_upload env request;
           route_get_metadata env request; route_health env request ]
         (ret not_found)) w.
Proof.
  intros Ha. unfold try_block; cbn [first_return].
  rewrite or_next_none by (apply route_upload_skip; rewrite Ha; reflexivity).
  rewrite or_next_none by (apply route_cc_skip; rewrite Ha; reflexivity).
  reflexivity.
Qed.

(** C9: a [POST ?action=save-enhanced] whose body has an image of the
    form [data:image/<type>;base64,<payload>] with a payload [atob]
    decodes, and no [metadata], makes exactly one call to the store,
    the [put] of the decoded bytes at [enhanced/enhanced_<t>.jpg] (which
    the store accepts), and is answered with 200
    [{success:true, url, downloadUrl, size}]. *)
Theorem save_enhanced_without_metadata (env : Env) (request : Request)
  (w : World) (body : Value) (image type payload binary : jsstring)
  (blob : PutBlob) :
  action_of request = lit "save-enhanced" ->
  req_method request = lit "POST" ->
  req_json request = Ok body ->
  readable body ->
  property body "image" = VStr image ->
  data_url image type payload ->
  atob env payload = Ok binary ->
  property body "metadata" = VUndefined ->
  store_put env (enhanced_path (clock env (ticks w)))
    (Bytes (to_Uint8Array binary)) jpeg_options = Ok blob ->
  handler env request w
  = (mkResponse 200 corsHeaders (Some (saved_body blob)),
     after [CallPut (enhanced_path (clock env (ticks w)))
              (Bytes (to_Uint8Array binary)) jpeg_options] 1 w).
Proof.
  intros Ha Hm Hj Hr Hi Hurl Hatob Hmeta Hput.
  assert (Hmatch : match_data_url image = Some payload)
    by (apply match_data_url_spec; now exists type).
  apply handler_returns; [now apply post_is_not_options|].
  rewrite try_block_save_enhanced by exact Ha.
  apply or_next_some.
  rewrite (save_enhanced_image_put env request w body image payload binary
             blob) by assumption.
  rewrite Hmeta; cbn [truthy].
  rewrite jsonResponse_saved. reflexivity.
Qed.

Lemma save_enhanced_without_metadata_witness :
  handler Sample.quiet
    (Sample.with_json "POST" "save-enhanced" Sample_documents.image_only)
    Sample.world0
  = (mkResponse 200 corsHeaders
       (Some (VObj [ (lit "success", VBool true);
                     (lit "url",
                       VStr (lit "https://store.example/enhanced/enhanced_1700000000000.jpg"));
                     (lit "downloadUrl",
                       VStr (lit "https://store.example/enhanced/enhanced_1700000000000.jpg?download=1"));
                     (lit "size", VNum 4) ])),
     after [CallPut (lit "enhanced/enhanced_1700000000000.jpg")
              (Bytes [255; 216; 255; 224]) jpeg_options] 1 Sample.world0).
Proof.
  apply (save_enhanced_without_metadata Sample.quiet
           (Sample.with_json "POST" "save-enhanced"
              Sample_documents.image_only)
           Sample.world0 Sample_documents.image_only
           (lit "data:image/jpeg;base64,/9j/4A==") (lit "jpeg")
           (lit "/9j/4A==") [255; 216; 255; 224]
           (Sample.stored (lit "enhanced/enhanced_1700000000000.jpg")
              (Bytes [255; 216; 255; 224])));
    try reflexivity.
  - split; discriminate.
  - repeat split; try discriminate; repeat constructor.
Defined.

(** C2, as the code has it: with a truthy [metadata], when the store
    has accepted the image and rejects the [put] of the metadata
    document, the exception reaches the [catch] block: the answer is
    status 500 with [success: false] and the store's message, not the
    success envelope.  The image [put] has been made and no [del]
    follows it: the two [put]s are all the calls of the request. *)
Theorem save_enhanced_metadata_failure (env : Env) (request : Request)
  (w : World) (body : Value) (image type payload binary : jsstring)
  (blob : PutBlob) (e : Error) :
  action_of request = lit "save-enhanced" ->
  req_method request = lit "POST" ->
  req_json request = Ok body ->
  readable body ->
  property body "image" = VStr image ->
  data_url image type payload ->
  atob env payload = Ok binary ->
  truthy (property body "metadata") = true ->
  store_put env (enhanced_path (clock env (ticks w)))
    (Bytes (to_Uint8Array binary)) jpeg_options = Ok blob ->
  (forall document,
     store_put env (metadata_path (clock env (S (ticks w)))) (Json document)
       json_options = Throw e) ->
  exists document doc,
    handler env request w
    = (mkResponse 500 corsHeaders (Some doc),
       logged e
         (after [ CallPut (enhanced_path (clock env (ticks w)))
                    (Bytes (to_Uint8Array binary)) jpeg_options;
                  CallPut (metadata_path (clock env (S (ticks w))))
                    (Json document) json_options ] 3 w))
    /\ property doc "success" = VBool false
    /\ property doc "error" = VStr (reported_message e)
    /\ property document "imageUrl" = VStr (pb_url blob).
Proof.
  intros Ha Hm Hj Hr Hi Hurl Hatob Hmeta Hput Hfail.
  assert (Hmatch : match_data_url image = Some payload)
    by (apply match_data_url_spec; now exists type).
  destruct (error_response_document env e) as (doc & Hd & Hs & He & _).
  eexists; exists doc; split; [|split; [exact Hs|split; [exact He|]]].
  - rewrite <- Hd.
    apply handler_catches; [now apply post_is_not_options|].
    rewrite try_block_save_enhanced by exact Ha.
    apply or_next_throw.
    rewrite (save_enhanced_image_put env request w body image payload binary
               blob) by assumption.
    rewrite Hmeta.
    unfold bind, Date_now, new_Date_toISOString, bind, Date_now, ret, put,
      record_call, after; cbn [calls ticks console].
    rewrite Hfail. rewrite <- app_assoc. reflexivity.
  - rewrite JSON_stringify_obj; cbn [property].
    rewrite lookup_stringify_props;
      rewrite lookup_set_prop_other by reflexivity;
      rewrite lookup_set_prop_same; reflexivity.
Qed.

Lemma save_enhanced_metadata_failure_witness :
  exists document doc,
    handler Sample_stores.no_metadata
      (Sample.with_json "POST" "save-enhanced"
         Sample_documents.image_and_metadata) Sample.world0
    = (mkResponse 500 corsHeaders (Some doc),
       logged Sample.store_error
         (after [ CallPut (lit "enhanced/enhanced_1700000000000.jpg")
                    (Bytes [255; 216; 255; 224]) jpeg_options;
                  CallPut (lit "metadata/meta_1700000000001.json")
                    (Json document) json_options ] 3 Sample.world0))
    /\ property doc "success" = VBool false
    /\ property doc "error"
       = VStr (lit "Vercel Blob: the store is not reachable")
    /\ property document "imageUrl"
       = VStr (lit "https://store.example/enhanced/enhanced_1700000000000.jpg").
Proof.
  apply (save_enhanced_metadata_failure Sample_stores.no_metadata
           (Sample.with_json "POST" "save-enhanced"
              Sample_documents.image_and_metadata)
           Sample.world0 Sample_documents.image_and_metadata
           (lit "data:image/jpeg;base64,/9j/4A==") (lit "jpeg")
           (lit "/9j/4A==") [255; 216; 255; 224]
           (Sample.stored (lit "enhanced/enhanced_1700000000000.jpg")
              (Bytes [255; 216; 255; 224]))
           Sample.store_error);
    try reflexivity.
  - split; discriminate.
  - repeat split; try discriminate; repeat constructor.
Defined.

(** C2 as stated fails on a store that rejects the metadata document:
    the image is stored, the [put] under [metadata/] is rejected, and
    the answer is not the success envelope but status 500 with the
    store's message. *)
Lemma metadata_failure_is_not_ignored :
  handler Sample_stores.no_metadata
    (Sample.with_json "POST" "save-enhanced"
       Sample_documents.image_and_metadata) Sample.world0
  = (mkResponse 500 corsHeaders
       (Some (error_body "Vercel Blob: the store is not reachable")),
     logged Sample.store_error
       (after [ CallPut (lit "enhanced/enhanced_1700000000000.jpg")
                  (Bytes [255; 216; 255; 224]) jpeg_options;
                CallPut (lit "metadata/meta_1700000000001.json")
                  (Json (VObj [ (lit "filter", VStr (lit "warm"));
                                (lit "imageUrl",
                                  VStr (lit "https://store.example/enhanced/enhanced_1700000000000.jpg"));
                                (lit "timestamp",
                                  VStr (lit "2023-11-14T22:13:20.002Z")) ]))
                  json_options ] 3 Sample.world0)).
Proof. reflexivity. Qed.

(** ** The [GET] branch of the [cc] route *)

Lemma after_nil (w : World) : after [] 0 w = w.
Proof. destruct w; unfold after; cbn; now rewrite app_nil_r. Qed.

Lemma after_after (cs cs' : list Call) (n n' : nat) (w : World) :
  after cs' n' (after cs n w) = after (cs ++ cs') (n' + n) w.
Proof.
  unfold after; cbn [calls ticks console].
  now rewrite <- app_assoc, Nat.add_assoc.
Qed.

(** The callback never throws: a blob gives its entry, or [null]. *)
Lemma cc_filter_run (env : Env) (blob : ListBlob) (w : World) :
  cc_filter env blob w
  = (Ok (match resolve env blob with Some entry => entry | None => VNull end),
     after [CallFetch (lb_url blob)] 0 w).
Proof.
  unfold cc_filter, try_or_null, bind, fetch_json, resolve.
  destruct (net_fetch_json env (lb_url blob)) as [data|e]; [|reflexivity].
  destruct data; reflexivity.
Qed.

Lemma all_map_cc_filter (env : Env) (blobs : list ListBlob) (w : World) :
  all_map (cc_filter env) blobs w
  = (Ok (List.map (fun blob => match resolve env blob with
                               | Some entry => entry
                               | None => VNull
                               end) blobs),
     after (List.map (fun blob => CallFetch (lb_url blob)) blobs) 0 w).
Proof.
  revert w; induction blobs as [|blob blobs IH]; intros w.
  - cbn [all_map List.map]; now rewrite after_nil.
  - cbn [all_map List.map]. unfold bind at 1; rewrite cc_filter_run.
    unfold bind at 1; rewrite IH. rewrite after_after. reflexivity.
Qed.

Lemma resolve_not_null (env : Env) (blob : ListBlob) (entry : Value) :
  resolve env blob = Some entry -> not_null entry = true.
Proof.
  unfold resolve.
  destruct (net_fetch_json env (lb_url blob)) as [data|e]; [|discriminate].
  destruct data; intros E; inversion E; reflexivity.
Qed.

(** Filtering the [null]s out leaves the entries of the blobs that
    resolve. *)
Lemma filter_not_null_resolved (env : Env) (blobs : list ListBlob) :
  filter not_null
    (List.map (fun blob => match resolve env blob with
                           | Some entry => entry
                           | None => VNull
                           end) blobs)
  = resolved env blobs.
Proof.
  unfold resolved.
  induction blobs as [|blob blobs IH]; [reflexivity|].
  cbn [List.map filter flat_map].
  destruct (resolve env blob) as [entry|] eqn:E.
  - rewrite (resolve_not_null env blob entry E), IH; reflexivity.
  - cbn [not_null]; rewrite IH; reflexivity.
Qed.

Lemma resolved_length (env : Env) (blobs : list ListBlob) :
  List.length (resolved env blobs) = List.length (filter (resolves env) blobs).
Proof.
  unfold resolved, resolves.
  induction blobs as [|blob blobs IH]; [reflexivity|].
  cbn [flat_map filter].
  destruct (resolve env blob); simpl; auto.
Qed.

(** C5: for a [GET ?action=cc] whose listing the store answers, each
    blob whose document cannot be fetched, parsed or read is dropped,
    the others give their entry; the answer is 200 with
    [success: true], [filters] the entries of the blobs that resolve and
    [count] their number, which is the number of resolving blobs. *)
Theorem cc_get_drops_failures (env : Env) (request : Request) (w : World)
  (blobs : list ListBlob) :
  action_of request = lit "cc" ->
  req_method request = lit "GET" ->
  store_list env (lit "cc-filters/") (VNum 100) = Ok blobs ->
  handler env request w
  = (jsonResponse
       (VObj [ (lit "success", VBool true);
               (lit "filters", VArr (resolved env blobs));
               (lit "count",
                 VNum (Z.of_nat (List.length (resolved env blobs)))) ])
       200 corsHeaders,
     after (list_then_fetch (lit "cc-filters/") blobs) 0 w)
  /\ List.length (resolved env blobs)
     = List.length (filter (resolves env) blobs)
  /\ (forall entry,
        In entry (resolved env blobs)
        <-> exists blob, In blob blobs /\ resolve env blob = Some entry).
Proof.
  intros Ha Hm Hl; split; [|split].
  - apply handler_returns; [rewrite Hm; vm_compute; discriminate|].
    unfold try_block; cbn [first_return].
    rewrite or_next_none
      by (apply route_upload_skip; rewrite Ha; reflexivity).
    apply or_next_some.
    unfold route_cc; rewrite Ha, Hm; literals; cbv iota.
    unfold bind at 1; unfold list_blobs; rewrite Hl.
    unfold bind at 1; rewrite all_map_cc_filter.
    rewrite filter_not_null_resolved.
    unfold ret, list_then_fetch, record_call, after;
      cbn [calls ticks console]. rewrite <- app_assoc. reflexivity.
  - apply resolved_length.
  - intros entry; unfold resolved; rewrite in_flat_map.
    split; intros (blob & Hin & H); exists blob; split; try exact Hin.
    + destruct (resolve env blob) as [entry'|]; [|contradiction].
      destruct H as [<-|[]]; reflexivity.
    + rewrite H; now left.
Qed.

Lemma cc_get_drops_failures_witness :
  handler Sample_listing.store (Sample.bare "GET" "cc") Sample.world0
  = (mkResponse 200 corsHeaders
       (Some (VObj [ (lit "success", VBool true);
                     (lit "filters",
                       VArr [ VObj [ (lit "name", VStr (lit "warm"));
                                     (lit "url",
                                       VStr (lit "https://store.example/cc-filters/warm_1.json"));
                                     (lit "uploadedAt",
                                       VStr (lit "2023-11-14T22:13:20.000Z"));
                                     (lit "size", VNum 40);
                                     (lit "values",
                                       VObj [ (lit "a", VNum 1) ]) ] ]);
                     (lit "count", VNum 1) ])),
     after [ CallList (lit "cc-filters/") (VNum 100);
             CallFetch (lit "https://store.example/cc-filters/warm_1.json");
             CallFetch (lit "https://store.example/cc-filters/lost_2.json") ]
       0 Sample.world0).
Proof.
  exact (proj1 (cc_get_drops_failures Sample_listing.store
                  (Sample.bare "GET" "cc") Sample.world0
                  [Sample_listing.warm; Sample_listing.lost]
                  eq_refl eq_refl eq_refl)).
Defined.

(** * Further properties of the handler *)

(** ** Runs of the monad *)

Lemma run_ret {A} (allowed : Call -> bool) (Q : A -> Prop) (a : A) :
  Q a -> run_spec allowed Q (ret a).
Proof.
  intros H w; cbn. repeat split; auto.
  exists []; now rewrite app_nil_r.
Qed.

Lemma run_throw {A} (allowed : Call -> bool) (Q : A -> Prop) (e : Error) :
  run_spec allowed Q (throw e).
Proof.
  intros w; cbn. repeat split; auto.
  exists []; now rewrite app_nil_r.
Qed.

Lemma run_await {A} (allowed : Call -> bool) (r : Result A) :
  run_spec allowed (fun _ => True) (await r).
Proof.
  intros w; cbn. repeat split; auto.
  - exists []; now rewrite app_nil_r.
  - now destruct r.
Qed.

Lemma run_bind {A B} (allowed : Call -> bool) (QA : A -> Prop)
  (QB : B -> Prop) (m : M A) (k : A -> M B) :
  run_spec allowed QA m ->
  (forall a, QA a -> run_spec allowed QB (k a)) ->
  run_spec allowed QB (bind m k).
Proof.
  intros Hm Hk w. unfold bind.
  destruct (Hm w) as (Hc & Ht & (cs & Hcs & Hal) & Hq).
  destruct (m w) as [[a|e] w1]; cbn [fst snd] in *.
  - destruct (Hk a Hq w1) as (Hc' & Ht' & (cs' & Hcs' & Hal') & Hq').
    repeat split.
    + congruence.
    + lia.
    + exists (cs ++ cs'). rewrite Hcs', Hcs, app_assoc. split; [reflexivity|].
      now rewrite forallb_app, Hal, Hal'.
    + exact Hq'.
  - repeat split; auto. now exists cs.
Qed.

Lemma run_weaken {A} (allowed : Call -> bool) (Q Q' : A -> Prop) (m : M A) :
  (forall a, Q a -> Q' a) -> run_spec allowed Q m -> run_spec allowed Q' m.
Proof.
  intros HQ Hm w. destruct (Hm w) as (Hc & Ht & Hcs & Hq).
  repeat split; auto. destruct (fst (m w)); auto.
Qed.

Lemma run_call {A} (allowed : Call -> bool) (c : Call) (r : Result A) :
  allowed c = true ->
  run_spec allowed (fun _ => True) (fun w => (r, record_call c w)).
Proof.
  intros H w; cbn. repeat split; auto.
  - exists [c]; split; [reflexivity|]. cbn; now rewrite H.
  - now destruct r.
Qed.

Lemma run_Date_now (env : Env) (allowed : Call -> bool) :
  run_spec allowed (fun _ => True) (Date_now env).
Proof.
  intros w; cbn. repeat split; auto.
  exists []; now rewrite app_nil_r.
Qed.

Lemma run_new_Date (env : Env) (allowed : Call -> bool) :
  run_spec allowed (fun _ => True) (new_Date_toISOString env).
Proof.
  unfold new_Date_toISOString.
  eapply run_bind; [apply run_Date_now|]. intros; now apply run_ret.
Qed.

Lemma run_member (env : Env) (allowed : Call -> bool) (v : Value)
  (k : string) :
  run_spec allowed (fun _ => True) (member env v k).
Proof.
  destruct v; cbn [member]; first [now apply run_ret | apply run_throw].
Qed.

Lemma run_as_string (env : Env) (allowed : Call -> bool) (v : Value)
  (f : string) :
  run_spec allowed (fun _ => True) (as_string env v f).
Proof.
  destruct v; cbn [as_string]; first [now apply run_ret | apply run_throw].
Qed.

Lemma run_try_or_null (allowed : Call -> bool) (Q : Value -> Prop)
  (m : M Value) :
  run_spec allowed Q m -> run_spec allowed (fun _ => True) (try_or_null m).
Proof.
  intros Hm w. unfold try_or_null.
  destruct (Hm w) as (Hc & Ht & Hcs & _).
  destruct (m w) as [[v|e] w1]; cbn [fst snd] in *; auto.
Qed.

Lemma run_all_map {A B} (allowed : Call -> bool) (f : A -> M B)
  (xs : list A) :
  (forall x, run_spec allowed (fun _ => True) (f x)) ->
  run_spec allowed (fun _ => True) (all_map f xs).
Proof.
  intros Hf; induction xs as [|x xs IH]; cbn [all_map].
  - now apply run_ret.
  - eapply run_bind; [apply Hf|]. intros y _.
    eapply run_bind; [apply IH|]. intros ys _. now apply run_ret.
Qed.

Lemma run_or_next {A} (allowed : Call -> bool) (Q : A -> Prop)
  (block : M (option A)) (rest : M A) :
  run_spec allowed (fun o => forall a, o = Some a -> Q a) block ->
  run_spec allowed Q rest ->
  run_spec allowed Q (or_next block rest).
Proof.
  intros Hb Hr. unfold or_next.
  eapply run_bind; [exact Hb|].
  intros [a|] Ha; [apply run_ret; now apply Ha | exact Hr].
Qed.

Lemma run_put (env : Env) (allowed : Call -> bool) (pathname : jsstring)
  (content : Content) (options : PutOptions) :
  allowed (CallPut pathname content options) = true ->
  run_spec allowed (fun _ => True) (put env pathname content options).
Proof. intros H; exact (run_call allowed _ _ H). Qed.

Lemma run_del (env : Env) (allowed : Call -> bool) (url : jsstring) :
  allowed (CallDel url) = true ->
  run_spec allowed (fun _ => True) (del env url).
Proof. intros H; exact (run_call allowed _ _ H). Qed.

Lemma run_list_blobs (env : Env) (allowed : Call -> bool)
  (prefix : jsstring) (limit : Value) :
  allowed (CallList prefix limit) = true ->
  run_spec allowed (fun _ => True) (list_blobs env prefix limit).
Proof. intros H; exact (run_call allowed _ _ H). Qed.

Lemma run_fetch_json (env : Env) (allowed : Call -> bool) (url : jsstring) :
  allowed (CallFetch url) = true ->
  run_spec allowed (fun _ => True) (fetch_json env url).
Proof. intros H; exact (run_call allowed _ _ H). Qed.

(** ** The envelope of the responses *)

Lemma success_of_stringify (b : bool) (rest : Props) :
  property (JSON_stringify (VObj ((lit "success", VBool b) :: rest)))
    "success" = VBool b.
Proof.
  rewrite JSON_stringify_obj.
  cbn [stringify_props unserializable JSON_stringify property lookup].
  now rewrite eqb_refl.
Qed.

Lemma envelope_success (failures : list N) (rest : Props) :
  envelope failures
    (jsonResponse (VObj ((lit "success", VBool true) :: rest)) 200
       corsHeaders).
Proof.
  eexists; split; [reflexivity|]. left; split; [reflexivity|].
  apply success_of_stringify.
Qed.

Lemma envelope_failure (failures : list N) (status : N) (message : string) :
  In status failures -> envelope failures (failure status message).
Proof.
  intros H. exists (error_body message); split; [reflexivity|].
  right; split; [exact H|]. split; [reflexivity|].
  now exists (lit message).
Qed.

Lemma envelope_not_found : envelope [400; 404; 405] not_found.
Proof.
  exists invalid_action_body; split; [reflexivity|].
  right; split; [simpl; tauto|]. split; [reflexivity|].
  now exists (lit "Invalid action").
Qed.

Ltac envelope_ok :=
  first [ exact I
        | apply envelope_success
        | apply envelope_failure; simpl; tauto ].

(** One step through a block, for [run_spec]. *)
Ltac run_step :=
  cbv zeta;
  match goal with
  | |- run_spec _ _ (ret None) => apply run_ret; intros ? E; discriminate E
  | |- run_spec _ _ (ret (Some _)) =>
      apply run_ret;
      first [ exact I
            | intros ? E; inversion E; subst; clear E; envelope_ok ]
  | |- run_spec _ _ (ret _) => apply run_ret; exact I
  | |- run_spec _ _ (throw _) => apply run_throw
  | |- run_spec _ _ (await _) => apply run_await
  | |- run_spec _ _ (Date_now _) => apply run_Date_now
  | |- run_spec _ _ (new_Date_toISOString _) => apply run_new_Date
  | |- run_spec _ _ (member _ _ _) => apply run_member
  | |- run_spec _ _ (as_string _ _ _) => apply run_as_string
  | |- run_spec _ _ (put _ _ _ _) =>
      apply run_put; cbn [verb_allows]; assumption
  | |- run_spec _ _ (del _ _) => apply run_del; cbn [verb_allows]; assumption
  | |- run_spec _ _ (list_blobs _ _ _) =>
      apply run_list_blobs; cbn [verb_allows]; assumption
  | |- run_spec _ _ (fetch_json _ _) =>
      apply run_fetch_json; cbn [verb_allows]; assumption
  | |- run_spec _ _ (all_map _ _) => apply run_all_map; intros
  | |- run_spec _ _ (try_or_null _) =>
      eapply (run_try_or_null _ (fun _ => True))
  | |- run_spec _ _ (cc_filter _ _) => unfold cc_filter
  | |- run_spec _ _ (metadata_entry _ _) => unfold metadata_entry
  | |- run_spec _ _ (bind _ _) =>
      eapply (run_bind _ (fun _ => True));
      [ solve [repeat run_step] | intros ? _ ]
  | |- run_spec _ _ (if negb ?c then _ else _) =>
      destruct c eqn:?; cbn [negb]
  | |- run_spec _ _ (if ?c then _ else _) => destruct c eqn:?
  | |- run_spec _ _ (match ?x with _ => _ end) => destruct x
  end.

Ltac run_block := unfold block_spec; repeat run_step.

Lemma route_upload_run env request :
  block_spec (req_method request) (route_upload env request).
Proof. unfold route_upload; run_block. Qed.

Lemma route_cc_run env request :
  block_spec (req_method request) (route_cc env request).
Proof. unfold route_cc; run_block. Qed.

Lemma route_save_enhanced_run env request :
  block_spec (req_method request) (route_save_enhanced env request).
Proof. unfold route_save_enhanced; run_block. Qed.

Lemma route_list_uploads_run env request :
  block_spec (req_method request) (route_list_uploads env request).
Proof. unfold route_list_uploads; run_block. Qed.

Lemma route_delete_upload_run env request :
  block_spec (req_method request) (route_delete_upload env request).
Proof. unfold route_delete_upload; run_block. Qed.

Lemma route_get_metadata_run env request :
  block_spec (req_method request) (route_get_metadata env request).
Proof. unfold route_get_metadata; run_block. Qed.

Lemma route_health_run env request :
  block_spec (req_method request) (route_health env request).
Proof. unfold route_health; run_block. Qed.

Lemma try_block_run env request :
  run_spec (verb_allows (req_method request)) (envelope [400; 404; 405])
    (try_block env request).
Proof.
  unfold try_block; cbn [first_return].
  repeat (apply run_or_next;
          [ first [ apply route_upload_run | apply route_cc_run
                  | apply route_save_enhanced_run
                  | apply route_list_uploads_run
                  | apply route_delete_upload_run
                  | apply route_get_metadata_run | apply route_health_run ]
          | ]).
  apply run_ret; apply envelope_not_found.
Qed.

Lemma envelope_more (failures failures' : list N) (r : Response) :
  incl failures failures' -> envelope failures r -> envelope failures' r.
Proof.
  intros Hi (doc & Hb & [H|(Hs & H)]); exists doc; (split; [exact Hb|]).
  - left; exact H.
  - right; split; [apply Hi; exact Hs | exact H].
Qed.

Lemma envelope_error_response (env : Env) (e : Error) :
  envelope [400; 404; 405; 500] (error_response env e).
Proof.
  destruct (error_response_document env e) as (doc & -> & Hs & He & _).
  exists doc; split; [reflexivity|]. right; split; [simpl; tauto|].
  split; [exact Hs|]. now exists (reported_message e).
Qed.

(** X1: a response to a request that is not a preflight is a JSON
    document with [success: true] and status 200, or with
    [success: false], an [error] string and status 400, 404, 405 or
    500. *)
Theorem every_response_is_an_envelope (env : Env) (request : Request)
  (w : World) :
  req_method request <> lit "OPTIONS" ->
  envelope [400; 404; 405; 500] (fst (handler env request w)).
Proof.
  intros Hm; apply eqb_neq in Hm. unfold handler; rewrite Hm.
  destruct (try_block_run env request w) as (_ & _ & _ & Hq).
  destruct (try_block env request w) as [[r|e] w']; cbn [fst] in *.
  - apply (envelope_more [400; 404; 405]); [|exact Hq].
    intros x Hx; simpl in *; tauto.
  - apply envelope_error_response.
Qed.

Lemma every_response_is_an_envelope_witness :
  envelope [400; 404; 405; 500]
    (fst (handler Sample.quiet (Sample.bare "DELETE" "delete-upload")
            Sample.world0)).
Proof. apply every_response_is_an_envelope; vm_compute; discriminate. Defined.

(** X2: the handler calls [put] only for a POST, [del] only for a
    DELETE, and [list] and [fetch] only for a GET: the calls a request
    adds to the world all agree with its method. *)
Theorem calls_follow_the_method (env : Env) (request : Request) (w : World) :
  exists cs,
    calls (snd (handler env request w)) = calls w ++ cs
    /\ Forall (fun c =>
                 match c with
                 | CallPut _ _ _ => req_method request = lit "POST"
                 | CallDel _ => req_method request = lit "DELETE"
                 | CallList _ _ | CallFetch _ =>
                     req_method request = lit "GET"
                 end) cs.
Proof.
  unfold handler.
  destruct (eqb (req_method request) (lit "OPTIONS")).
  - exists []; cbn; now rewrite app_nil_r.
  - destruct (try_block_run env request w) as (_ & _ & (cs & Hcs & Hal) & _).
    exists cs; split.
    + destruct (try_block env request w) as [[r|e] w']; exact Hcs.
    + apply Forall_forall; intros c Hc.
      rewrite forallb_forall in Hal. specialize (Hal c Hc).
      destruct c; cbn [verb_allows] in Hal; now apply eqb_eq.
Qed.

(** X3: status 500 and the console go together: a response with status
    500 is the response of the [catch] block for an exception that has
    been logged, once; any other response leaves the console as it
    was. *)
Theorem status_500_is_logged (env : Env) (request : Request) (w : World) :
  (res_status (fst (handler env request w)) = 500 ->
   exists e,
     fst (handler env request w) = error_response env e
     /\ console (snd (handler env request w)) = console w ++ [e])
  /\ (res_status (fst (handler env request w)) <> 500 ->
      console (snd (handler env request w)) = console w).
Proof.
  unfold handler.
  destruct (eqb (req_method request) (lit "OPTIONS")).
  - cbn; split; [discriminate|reflexivity].
  - destruct (try_block_run env request w) as (Hc & _ & _ & Hq).
    destruct (try_block env request w) as [[r|e] w']; cbn [fst snd] in *.
    + split; [|intros _; exact Hc].
      intros H500. destruct Hq as (doc & _ & [[Hs _]|[Hs _]]).
      * rewrite Hs in H500; discriminate H500.
      * rewrite H500 in Hs; simpl in Hs.
        destruct Hs as [E|[E|[E|[]]]]; discriminate E.
    + split.
      * intros _; exists e; split; [reflexivity|].
        cbn [console_error console]; now rewrite Hc.
      * intros H; exfalso; apply H; reflexivity.
Qed.

Lemma status_500_is_logged_witness :
  console (snd (handler Sample.quiet (Sample.bare "GET" "health")
                  Sample.world0)) = [].
Proof.
  apply (proj2 (status_500_is_logged Sample.quiet
                  (Sample.bare "GET" "health") Sample.world0)).
  vm_compute; discriminate.
Defined.

(** ** Methods the action does not support, at an instance *)

Lemma method_not_allowed_witness :
  handler Sample.quiet (Sample.bare "GET" "upload") Sample.world0
  = (mkResponse 405 corsHeaders (Some (error_body "Method not allowed")),
     Sample.world0).
Proof.
  apply (method_not_allowed Sample.quiet (Sample.bare "GET" "upload")
           Sample.world0 "upload" "POST").
  - simpl; tauto.
  - reflexivity.
  - vm_compute; discriminate.
  - vm_compute; discriminate.
Defined.

(** ** The [save-enhanced] route: rejections and the metadata document *)

Ltac skip_routes Ha :=
  repeat (rewrite or_next_none
            by (first [ apply route_upload_skip | apply route_cc_skip
                      | apply route_save_enhanced_skip
                      | apply route_list_uploads_skip
                      | apply route_delete_upload_skip
                      | apply route_get_metadata_skip
                      | apply route_health_skip ];
                rewrite Ha; reflexivity)).

(** The [save-enhanced] block under POST, before the body is read. *)
Lemma route_save_enhanced_post (env : Env) (request : Request) (w : World) :
  action_of request = lit "save-enhanced" ->
  req_method request = lit "POST" ->
  forall body,
  req_json request = Ok body ->
  readable body ->
  route_save_enhanced env request w
  = (if negb (truthy (property body "image")) then
       ret (Some (failure 400 "No image provided"))
     else
       image_string <- as_string env (property body "image") "match" ;;
       match match_data_url image_string with
       | None => ret (Some (failure 400 "Invalid image format"))
       | Some base64Data =>
           binaryString <- await (atob env base64Data) ;;
           t <- Date_now env ;;
           blob <- put env (enhanced_path t)
                     (Bytes (to_Uint8Array binaryString)) jpeg_options ;;
           (if truthy (property body "metadata") then
              t' <- Date_now env ;;
              timestamp <- new_Date_toISOString env ;;
              put env (metadata_path t')
                (Json (JSON_stringify (VObj
                   (set_prop (lit "timestamp") (VStr timestamp)
                      (set_prop (lit "imageUrl") (VStr (pb_url blob))
                         (spread (property body "metadata")))))))
                json_options ;;;
              ret tt
            else ret tt) ;;;
           ret (Some (jsonResponse
             (VObj [ (lit "success", VBool true);
                     (lit "url", VStr (pb_url blob));
                     (lit "downloadUrl", opt_str (pb_downloadUrl blob));
                     (lit "size", VNum (Z.of_N (pb_size blob))) ])
             200 corsHeaders))
       end) w.
Proof.
  intros Ha Hm body Hj Hr.
  unfold route_save_enhanced; rewrite Ha, Hm; literals; cbv iota.
  cbn [negb].
  unfold bind at 1; unfold await at 1; rewrite Hj.
  rewrite !member_readable by exact Hr.
  reflexivity.
Qed.




(** Reading a key other than the two the handler sets. *)
Lemma lookup_metadata_document (k : jsstring) (timestamp url : jsstring)
  (ps : Props) :
  eqb k (lit "timestamp") = false ->
  eqb k (lit "imageUrl") = false ->
  unserializable (lookup k ps) = false ->
  lookup k (stringify_props
              (set_prop (lit "timestamp") (VStr timestamp)
                 (set_prop (lit "imageUrl") (VStr url) ps)))
  = JSON_stringify (lookup k ps).
Proof.
  intros Ht Hu Hs.
  rewrite lookup_stringify_props;
    rewrite !lookup_set_prop_other by assumption; [reflexivity|exact Hs].
Qed.

(** X6: when the store rejects the [put] of the image, the answer is
    the [catch] block's for the store's exception and that [put] is the
    only call: no metadata document is written, whatever [metadata]
    is. *)
Theorem save_enhanced_image_put_fails (env : Env) (request : Request)
  (w : World) (body : Value) (image type payload binary : jsstring)
  (e : Error) :
  action_of request = lit "save-enhanced" ->
  req_method request = lit "POST" ->
  req_json request = Ok body ->
  readable body ->
  property body "image" = VStr image ->
  data_url image type payload ->
  atob env payload = Ok binary ->
  store_put env (enhanced_path (clock env (ticks w)))
    (Bytes (to_Uint8Array binary)) jpeg_options = Throw e ->
  handler env request w
  = (error_response env e,
     logged e
       (after [CallPut (enhanced_path (clock env (ticks w)))
                 (Bytes (to_Uint8Array binary)) jpeg_options] 1 w)).
Proof.
  intros Ha Hm Hj Hr Hi Hurl Hatob Hput.
  assert (Hmatch : match_data_url image = Some payload)
    by (apply match_data_url_spec; now exists type).
  pose proof (match_data_url_nonempty _ _ Hmatch) as Hne.
  apply handler_catches; [now apply post_is_not_options|].
  rewrite try_block_save_enhanced by exact Ha. apply or_next_throw.
  rewrite (route_save_enhanced_post env request w Ha Hm body Hj Hr), Hi.
  destruct image as [|c image]; [contradiction|].
  cbn [truthy negb as_string]. unfold bind at 1, ret at 1.
  rewrite Hmatch. unfold bind at 1, await at 1. rewrite Hatob.
  unfold bind at 1, Date_now at 1. unfold bind at 1, put at 1.
  cbn [ticks calls console record_call]. rewrite Hput. reflexivity.
Qed.

Lemma save_enhanced_image_put_fails_witness :
  handler Sample_requests.no_images
    (Sample.with_json "POST" "save-enhanced"
       Sample_documents.image_and_metadata) Sample.world0
  = (mkResponse 500 corsHeaders
       (Some (error_body "Vercel Blob: the store is not reachable")),
     logged Sample.store_error
       (after [CallPut (lit "enhanced/enhanced_1700000000000.jpg")
                 (Bytes [255; 216; 255; 224]) jpeg_options] 1
          Sample.world0)).
Proof.
  apply (save_enhanced_image_put_fails Sample_requests.no_images
           (Sample.with_json "POST" "save-enhanced"
              Sample_documents.image_and_metadata)
           Sample.world0 Sample_documents.image_and_metadata
           (lit "data:image/jpeg;base64,/9j/4A==") (lit "jpeg")
           (lit "/9j/4A==") [255; 216; 255; 224] Sample.store_error);
    try reflexivity.
  - split; discriminate.
  - repeat split; try discriminate; repeat constructor.
Defined.

(** X7: with an object for [metadata] and a store that accepts both
    writes, the handler puts the image and then one document at
    [metadata/meta_<t>.json]; the document has the blob's URL for
    [imageUrl] and the server's time for [timestamp], whatever the
    caller sent under these two names, and the caller's other
    properties as they were; the answer is the one for the image
    alone. *)
Theorem save_enhanced_with_metadata (env : Env) (request : Request)
  (w : World) (body : Value) (image type payload binary : jsstring)
  (fields : Props) (blob side : PutBlob) :
  action_of request = lit "save-enhanced" ->
  req_method request = lit "POST" ->
  req_json request = Ok body ->
  readable body ->
  property body "image" = VStr image ->
  data_url image type payload ->
  atob env payload = Ok binary ->
  property body "metadata" = VObj fields ->
  store_put env (enhanced_path (clock env (ticks w)))
    (Bytes (to_Uint8Array binary)) jpeg_options = Ok blob ->
  (forall document,
     store_put env (metadata_path (clock env (S (ticks w)))) (Json document)
       json_options = Ok side) ->
  exists document,
    handler env request w
    = (mkResponse 200 corsHeaders (Some (saved_body blob)),
       after [ CallPut (enhanced_path (clock env (ticks w)))
                 (Bytes (to_Uint8Array binary)) jpeg_options;
               CallPut (metadata_path (clock env (S (ticks w))))
                 (Json document) json_options ] 3 w)
    /\ property document "imageUrl" = VStr (pb_url blob)
    /\ property document "timestamp"
       = VStr (toISOString env (clock env (S (S (ticks w)))))
    /\ (forall k,
          lit k <> lit "imageUrl" -> lit k <> lit "timestamp" ->
          unserializable (lookup (lit k) fields) = false ->
          property document k = JSON_stringify (lookup (lit k) fields)).
Proof.
  intros Ha Hm Hj Hr Hi Hurl Hatob Hmeta Hput Hside.
  assert (Hmatch : match_data_url image = Some payload)
    by (apply match_data_url_spec; now exists type).
  eexists; split; [|split; [|split]].
  - apply handler_returns; [now apply post_is_not_options|].
    rewrite try_block_save_enhanced by exact Ha. apply or_next_some.
    rewrite (save_enhanced_image_put env request w body image payload binary
               blob) by assumption.
    rewrite Hmeta; cbn [truthy spread].
    unfold bind, Date_now, new_Date_toISOString, bind, Date_now, ret, put,
      record_call, after; cbn [calls ticks console].
    rewrite Hside. rewrite <- app_assoc. rewrite jsonResponse_saved.
    reflexivity.
  - rewrite JSON_stringify_obj; cbn [property].
    rewrite lookup_stringify_props;
      rewrite lookup_set_prop_other by reflexivity;
      rewrite lookup_set_prop_same; reflexivity.
  - rewrite JSON_stringify_obj; cbn [property].
    rewrite lookup_stringify_props;
      rewrite lookup_set_prop_same; reflexivity.
  - intros k Hk1 Hk2 Hs.
    rewrite JSON_stringify_obj; cbn [property].
    apply lookup_metadata_document; try assumption; now apply eqb_neq.
Qed.

Lemma save_enhanced_with_metadata_witness :
  exists document,
    handler Sample.quiet
      (Sample.with_json "POST" "save-enhanced"
         Sample_documents.image_and_metadata) Sample.world0
    = (mkResponse 200 corsHeaders
         (Some (saved_body
                  (Sample.stored (lit "enhanced/enhanced_1700000000000.jpg")
                     (Bytes [255; 216; 255; 224])))),
       after [ CallPut (lit "enhanced/enhanced_1700000000000.jpg")
                 (Bytes [255; 216; 255; 224]) jpeg_options;
               CallPut (lit "metadata/meta_1700000000001.json")
                 (Json document) json_options ] 3 Sample.world0)
    /\ property document "imageUrl"
       = VStr (lit "https://store.example/enhanced/enhanced_1700000000000.jpg")
    /\ property document "timestamp" = VStr (lit "2023-11-14T22:13:20.002Z")
    /\ property document "filter" = VStr (lit "warm").
Proof.
  destruct (save_enhanced_with_metadata Sample.quiet
              (Sample.with_json "POST" "save-enhanced"
                 Sample_documents.image_and_metadata)
              Sample.world0 Sample_documents.image_and_metadata
              (lit "data:image/jpeg;base64,/9j/4A==") (lit "jpeg")
              (lit "/9j/4A==") [255; 216; 255; 224]
              [ (lit "filter", VStr (lit "warm")) ]
              (Sample.stored (lit "enhanced/enhanced_1700000000000.jpg")
                 (Bytes [255; 216; 255; 224]))
              (Sample.stored (lit "metadata/meta_1700000000001.json")
                 (Json VNull)))
    as (document & Hh & Hu & Ht & Hk); try reflexivity.
  - split; discriminate.
  - repeat split; try discriminate; repeat constructor.
  - exists document; repeat split; try assumption.
    apply (Hk "filter"%string); [vm_compute; discriminate
                                |vm_compute; discriminate|reflexivity].
Defined.
(** ** The [upload] route *)

Lemma try_block_upload (env : Env) (request : Request) (w : World) :
  try_block env request w
  = or_next (route_upload env request)
      (first_return
         [ route_cc env request; route_save_enhanced env request;
           route_list_uploads env request; route_delete_upload env request;
           route_get_metadata env request; route_health env request ]
         (ret not_found)) w.
Proof. reflexivity. Qed.

Lemma jsonResponse_uploaded (blob : PutBlob) (uploadedAt : jsstring) :
  jsonResponse
    (VObj [ (lit "success", VBool true);
            (lit "url", VStr (pb_url blob));
            (lit "downloadUrl", opt_str (pb_downloadUrl blob));
            (lit "size", VNum (Z.of_N (pb_size blob)));
            (lit "uploadedAt", VStr uploadedAt) ])
    200 corsHeaders
  = mkResponse 200 corsHeaders (Some (uploaded_body blob uploadedAt)).
Proof.
  unfold jsonResponse, uploaded_body.
  destruct (pb_downloadUrl blob); reflexivity.
Qed.



(** X9: without a [filename] (absent or empty) the upload is put at
    [uploads/upload_<digits>.jpg], the digits being the clock's
    reading; [uploadedAt] is the next reading. *)
Theorem upload_without_filename (env : Env) (request : Request) (w : World)
  (blob : PutBlob) :
  action_of request = lit "upload" ->
  req_method request = lit "POST" ->
  searchParams_get (lit "filename") (req_query request) = None
  \/ searchParams_get (lit "filename") (req_query request) = Some [] ->
  let stamp := of_N (clock env (ticks w)) in
  let pathname := lit "uploads/upload_" ++ stamp ++ lit ".jpg" in
  store_put env pathname (Stream (req_body request)) upload_options
  = Ok blob ->
  digits stamp
  /\ handler env request w
     = (mkResponse 200 corsHeaders
          (Some (uploaded_body blob
                   (toISOString env (clock env (S (ticks w)))))),
        after [CallPut pathname (Stream (req_body request)) upload_options]
          2 w).
Proof.
  intros Ha Hm Hf stamp pathname Hput.
  split; [apply of_N_digits|].
  apply handler_returns; [now apply post_is_not_options|].
  rewrite try_block_upload. apply or_next_some.
  unfold route_upload; rewrite Ha, Hm; literals; cbv iota. cbn [negb].
  assert (E : match searchParams_get (lit "filename") (req_query request) with
              | Some (c :: s) => ret (c :: s)
              | _ => t <- Date_now env ;;
                     ret (lit "upload_" ++ of_N t ++ lit ".jpg")
              end
              = (t <- Date_now env ;;
                 ret (lit "upload_" ++ of_N t ++ lit ".jpg")))
    by (destruct Hf as [-> | ->]; reflexivity).
  rewrite E; clear E.
  unfold bind at 1. unfold bind at 1, Date_now at 1, ret at 1.
  unfold bind at 1, put at 1. cbn [calls ticks console record_call].
  unfold pathname, stamp, upload_options in Hput.
  change (lit "uploads/" ++ lit "upload_" ++ of_N (clock env (ticks w))
            ++ lit ".jpg")
    with (lit "uploads/upload_" ++ of_N (clock env (ticks w)) ++ lit ".jpg").
  rewrite Hput.
  unfold bind, new_Date_toISOString, bind, Date_now, ret, after;
    cbn [calls ticks console].
  rewrite jsonResponse_uploaded. reflexivity.
Qed.

Lemma upload_without_filename_witness :
  handler Sample.quiet Sample_requests.upload_unnamed Sample.world0
  = (mkResponse 200 corsHeaders
       (Some (uploaded_body
                (Sample.stored (lit "uploads/upload_1700000000000.jpg")
                   (Stream [137; 80; 78]))
                (lit "2023-11-14T22:13:20.001Z"))),
     after [CallPut (lit "uploads/upload_1700000000000.jpg")
              (Stream [137; 80; 78]) upload_options] 2 Sample.world0).
Proof.
  refine (proj2 (upload_without_filename Sample.quiet
                   Sample_requests.upload_unnamed Sample.world0
                   (Sample.stored (lit "uploads/upload_1700000000000.jpg")
                      (Stream [137; 80; 78])) _ _ _ _));
    try reflexivity.
  left; reflexivity.
Defined.
(** ** The two deletions *)



Lemma get_is_not_options (request : Request) :
  req_method request = lit "GET" -> req_method request <> lit "OPTIONS".
Proof. intros ->; vm_compute; discriminate. Qed.



Lemma try_block_cc (env : Env) (request : Request) (w : World) :
  action_of request = lit "cc" ->
  try_block env request w
  = or_next (route_cc env request)
      (first_return
         [ route_save_enhanced env request; route_list_uploads env request;
           route_delete_upload env request; route_get_metadata env request;
           route_health env request ]
         (ret not_found)) w.
Proof.
  intros Ha. unfold try_block; cbn [first_return].
  skip_routes Ha. reflexivity.
Qed.



(** ** The listings *)

Lemma try_block_list_uploads (env : Env) (request : Request) (w : World) :
  action_of request = lit "list-uploads" ->
  try_block env request w
  = or_next (route_list_uploads env request)
      (first_return
         [ route_delete_upload env request; route_get_metadata env request;
           route_health env request ]
         (ret not_found)) w.
Proof.
  intros Ha. unfold try_block; cbn [first_return].
  skip_routes Ha. reflexivity.
Qed.

Lemma try_block_get_metadata (env : Env) (request : Request) (w : World) :
  action_of request = lit "get-metadata" ->
  try_block env request w
  = or_next (route_get_metadata env request)
      (first_return [ route_health env request ] (ret not_found)) w.
Proof.
  intros Ha. unfold try_block; cbn [first_return].
  skip_routes Ha. reflexivity.
Qed.

Lemma stringify_upload_entries (blobs : list ListBlob) :
  List.map (fun x => if unserializable x then VNull else JSON_stringify x)
    (List.map (fun blob =>
       VObj [ (lit "url", VStr (lb_url blob));
              (lit "downloadUrl", opt_str (lb_downloadUrl blob));
              (lit "pathname", VStr (lb_pathname blob));
              (lit "size", VNum (Z.of_N (lb_size blob)));
              (lit "uploadedAt", VStr (lb_uploadedAt blob)) ]) blobs)
  = List.map upload_entry blobs.
Proof.
  induction blobs as [|blob blobs IH]; [reflexivity|].
  cbn [List.map]; rewrite IH; f_equal.
  unfold upload_entry; destruct (lb_downloadUrl blob); reflexivity.
Qed.

Lemma get_or_chosen (k : jsstring) (q : list (jsstring * jsstring))
  (default value : jsstring) :
  chosen (searchParams_get k q) default value -> get_or k q default = value.
Proof.
  unfold chosen, get_or.
  intros [[-> Hne]|[[-> | ->] ->]]; try reflexivity.
  destruct value; [contradiction|reflexivity].
Qed.

(** X12: a [GET ?action=list-uploads] asks the store once: for the
    [prefix] parameter of the query when it is there and not empty and
    for [uploads/] otherwise, and for [parseInt] of the [limit]
    parameter when it is there and not empty and of "50" otherwise; the
    answer lists one entry per blob, in the order of the listing, and
    [count] is their number. *)
Theorem list_uploads_contract (env : Env) (request : Request) (w : World)
  (prefix limit : jsstring) (blobs : list ListBlob) :
  action_of request = lit "list-uploads" ->
  req_method request = lit "GET" ->
  chosen (searchParams_get (lit "prefix") (req_query request))
    (lit "uploads/") prefix ->
  chosen (searchParams_get (lit "limit") (req_query request))
    (lit "50") limit ->
  store_list env prefix (parseInt env limit) = Ok blobs ->
  handler env request w
  = (mkResponse 200 corsHeaders
       (Some (VObj [ (lit "success", VBool true);
                     (lit "uploads", VArr (List.map upload_entry blobs));
                     (lit "count", VNum (Z.of_nat (List.length blobs))) ])),
     after [CallList prefix (parseInt env limit)] 0 w).
Proof.
  intros Ha Hm Hp Hlim Hl.
  apply get_or_chosen in Hp, Hlim.
  apply handler_returns; [now apply get_is_not_options|].
  rewrite try_block_list_uploads by exact Ha. apply or_next_some.
  unfold route_list_uploads; rewrite Ha, Hm; literals; cbv iota zeta.
  cbn [negb]. unfold bind, list_blobs. rewrite Hp, Hlim, Hl.
  unfold ret, jsonResponse.
  cbn [JSON_stringify unserializable].
  rewrite stringify_upload_entries. reflexivity.
Qed.

Lemma list_uploads_contract_witness :
  handler Sample_listing.store Sample_requests.list_filters Sample.world0
  = (mkResponse 200 corsHeaders
       (Some (VObj [ (lit "success", VBool true);
                     (lit "uploads",
                       VArr [ upload_entry Sample_listing.warm;
                              upload_entry Sample_listing.lost ]);
                     (lit "count", VNum 2) ])),
     after [CallList (lit "cc-filters/") (VNum 5)] 0 Sample.world0)
  /\ handler Sample_listing.store (Sample.bare "GET" "list-uploads")
       Sample.world0
     = (mkResponse 200 corsHeaders
          (Some (VObj [ (lit "success", VBool true);
                        (lit "uploads",
                          VArr [ upload_entry Sample_listing.warm;
                                 upload_entry Sample_listing.lost ]);
                        (lit "count", VNum 2) ])),
        after [CallList (lit "uploads/") (VNum 50)] 0 Sample.world0).
Proof.
  split.
  - apply (list_uploads_contract Sample_listing.store
             Sample_requests.list_filters Sample.world0
             (lit "cc-filters/") (lit "5")
             [Sample_listing.warm; Sample_listing.lost]);
      try reflexivity.
    + left; split; [reflexivity | vm_compute; discriminate].
    + left; split; [reflexivity | vm_compute; discriminate].
  - apply (list_uploads_contract Sample_listing.store
             (Sample.bare "GET" "list-uploads") Sample.world0
             (lit "uploads/") (lit "50")
             [Sample_listing.warm; Sample_listing.lost]);
      try reflexivity.
    + right; split; [left; reflexivity | reflexivity].
    + right; split; [left; reflexivity | reflexivity].
Defined.

Lemma metadata_entry_run (env : Env) (blob : ListBlob) (w : World) :
  metadata_entry env blob w
  = (Ok (match net_fetch_json env (lb_url blob) with
         | Ok data => metadata_of blob data
         | Throw _ => VNull
         end),
     after [CallFetch (lb_url blob)] 0 w).
Proof.
  unfold metadata_entry, try_or_null, bind, fetch_json.
  destruct (net_fetch_json env (lb_url blob)) as [data|e]; reflexivity.
Qed.

Lemma all_map_metadata_entry (env : Env) (blobs : list ListBlob) (w : World) :
  all_map (metadata_entry env) blobs w
  = (Ok (List.map (fun blob => match net_fetch_json env (lb_url blob) with
                               | Ok data => metadata_of blob data
                               | Throw _ => VNull
                               end) blobs),
     after (List.map (fun blob => CallFetch (lb_url blob)) blobs) 0 w).
Proof.
  revert w; induction blobs as [|blob blobs IH]; intros w.
  - cbn [all_map List.map]; now rewrite after_nil.
  - cbn [all_map List.map]. unfold bind at 1; rewrite metadata_entry_run.
    unfold bind at 1; rewrite IH. rewrite after_after. reflexivity.
Qed.

Lemma filter_not_null_described (env : Env) (blobs : list ListBlob) :
  filter not_null
    (List.map (fun blob => match net_fetch_json env (lb_url blob) with
                           | Ok data => metadata_of blob data
                           | Throw _ => VNull
                           end) blobs)
  = described env blobs.
Proof.
  unfold described.
  induction blobs as [|blob blobs IH]; [reflexivity|].
  cbn [List.map filter flat_map].
  destruct (net_fetch_json env (lb_url blob)); cbn [not_null metadata_of];
    rewrite IH; reflexivity.
Qed.

Lemma described_length (env : Env) (blobs : list ListBlob) :
  List.length (described env blobs)
  = List.length (filter (fetchable env) blobs).
Proof.
  unfold described, fetchable.
  induction blobs as [|blob blobs IH]; [reflexivity|].
  cbn [flat_map filter].
  destruct (net_fetch_json env (lb_url blob)); simpl; auto.
Qed.

(** X13: a [GET ?action=get-metadata] lists [metadata/], fetches every
    blob and answers with the entries of those whose document could be
    fetched and parsed, [count] being their number; an entry has the
    blob's URL for [metadataUrl] and its date for [uploadedAt] whatever
    the document says, and a document that is [null] still gives an
    entry, with these two properties only. *)
Theorem get_metadata_contract (env : Env) (request : Request) (w : World)
  (blobs : list ListBlob) :
  action_of request = lit "get-metadata" ->
  req_method request = lit "GET" ->
  store_list env (lit "metadata/") (VNum 100) = Ok blobs ->
  handler env request w
  = (jsonResponse
       (VObj [ (lit "success", VBool true);
               (lit "metadata", VArr (described env blobs));
               (lit "count",
                 VNum (Z.of_nat (List.length (described env blobs)))) ])
       200 corsHeaders,
     after (list_then_fetch (lit "metadata/") blobs) 0 w)
  /\ List.length (described env blobs)
     = List.length (filter (fetchable env) blobs)
  /\ (forall blob data,
        In blob blobs -> net_fetch_json env (lb_url blob) = Ok data ->
        In (metadata_of blob data) (described env blobs)
        /\ property (metadata_of blob data) "metadataUrl"
           = VStr (lb_url blob)
        /\ property (metadata_of blob data) "uploadedAt"
           = VStr (lb_uploadedAt blob))
  /\ (forall blob,
        metadata_of blob VNull
        = VObj [ (lit "metadataUrl", VStr (lb_url blob));
                 (lit "uploadedAt", VStr (lb_uploadedAt blob)) ]).
Proof.
  intros Ha Hm Hl; split; [|split; [|split]].
  - apply handler_returns; [now apply get_is_not_options|].
    rewrite try_block_get_metadata by exact Ha. apply or_next_some.
    unfold route_get_metadata; rewrite Ha, Hm; literals; cbv iota.
    cbn [negb]. unfold bind at 1; unfold list_blobs; rewrite Hl.
    unfold bind at 1; rewrite all_map_metadata_entry.
    rewrite filter_not_null_described.
    unfold ret, list_then_fetch, record_call, after;
      cbn [calls ticks console]. rewrite <- app_assoc. reflexivity.
  - apply described_length.
  - intros blob data Hin Hf. split; [|split].
    + unfold described. apply in_flat_map. exists blob; split; [exact Hin|].
      rewrite Hf; now left.
    + unfold metadata_of; cbn [property].
      rewrite lookup_set_prop_other by reflexivity.
      apply lookup_set_prop_same.
    + unfold metadata_of; cbn [property]. apply lookup_set_prop_same.
  - reflexivity.
Qed.

Lemma get_metadata_contract_witness :
  handler Sample_listing.store (Sample.bare "GET" "get-metadata")
    Sample.world0
  = (mkResponse 200 corsHeaders
       (Some (VObj [ (lit "success", VBool true);
                     (lit "metadata",
                       VArr [ VObj [ (lit "name", VStr (lit "warm"));
                                     (lit "values",
                                       VObj [ (lit "a", VNum 1) ]);
                                     (lit "metadataUrl",
                                       VStr (lb_url Sample_listing.warm));
                                     (lit "uploadedAt",
                                       VStr (lb_uploadedAt
                                               Sample_listing.warm)) ] ]);
                     (lit "count", VNum 1) ])),
     after (list_then_fetch (lit "metadata/")
              [Sample_listing.warm; Sample_listing.lost]) 0 Sample.world0).
Proof.
  exact (proj1 (get_metadata_contract Sample_listing.store
                  (Sample.bare "GET" "get-metadata") Sample.world0
                  [Sample_listing.warm; Sample_listing.lost]
                  eq_refl eq_refl eq_refl)).
Defined.

Lemma no_slash_app (a b : jsstring) :
  no_slash a -> no_slash b -> no_slash (a ++ b).
Proof. intros Ha Hb; apply Forall_app; now split. Qed.

Lemma last_segment_from_spec (s acc : jsstring) :
  no_slash acc ->
  no_slash (last_segment_from acc s)
  /\ exists dir,
       acc ++ s = dir ++ last_segment_from acc s
       /\ (dir = [] \/ exists d, dir = d ++ [47]).
Proof.
  revert acc; induction s as [|c s IH]; intros acc Hacc;
    cbn [last_segment_from].
  - split; [exact Hacc|]. exists []; split; [now rewrite app_nil_r|now left].
  - destruct (N.eqb_spec c 47) as [->|Hc].
    + destruct (IH [] (Forall_nil _)) as (Hn & dir & Hd & Hdir).
      split; [exact Hn|].
      exists (acc ++ 47 :: dir); split.
      * cbn [List.app] in Hd. rewrite <- app_assoc; cbn [List.app].
        do 2 f_equal. exact Hd.
      * right. destruct Hdir as [->|(d & ->)].
        -- now exists acc.
        -- exists (acc ++ 47 :: d). now rewrite <- app_assoc.
    + destruct (IH (acc ++ [c])) as (Hn & dir & Hd & Hdir).
      { apply no_slash_app; [exact Hacc|]. now constructor. }
      split; [exact Hn|]. exists dir; split; [|exact Hdir].
      rewrite <- Hd, <- app_assoc. reflexivity.
Qed.

(** X14: the entry of a listed filter takes [name] from the document
    when it is truthy and otherwise the part of the pathname after its
    last ['/'] (all of it when it has none); it takes [values] from the
    document when truthy and otherwise the whole document. *)
Theorem cc_filter_fallbacks (env : Env) (blob : ListBlob) (w : World)
  (data : Value) :
  net_fetch_json env (lb_url blob) = Ok data ->
  readable data ->
  exists entry,
    fst (cc_filter env blob w) = Ok entry
    /\ (truthy (property data "name") = true ->
        property entry "name" = property data "name")
    /\ (truthy (property data "name") = false ->
        exists dir segment,
          property entry "name" = VStr segment
          /\ no_slash segment
          /\ lb_pathname blob = dir ++ segment
          /\ (dir = [] \/ exists d, dir = d ++ [47]))
    /\ (truthy (property data "values") = true ->
        property entry "values" = property data "values")
    /\ (truthy (property data "values") = false ->
        property entry "values" = data).
Proof.
  intros Hf [Hn Hu]. exists (filter_entry blob data).
  split.
  - rewrite cc_filter_run. unfold resolve; rewrite Hf.
    destruct data; try reflexivity; contradiction.
  - unfold filter_entry, or_else. cbn [property lookup]. literals. cbv iota.
    repeat split.
    + now intros ->.
    + intros ->.
      destruct (last_segment_from_spec (lb_pathname blob) [] (Forall_nil _))
        as (Hns & dir & Hd & Hdir).
      exists dir, (last_segment (lb_pathname blob)).
      repeat split; assumption.
    + now intros ->.
    + now intros ->.
Qed.

Lemma cc_filter_fallbacks_witness :
  exists entry,
    fst (cc_filter Sample_requests.nameless_store Sample_listing.warm
           Sample.world0) = Ok entry
    /\ property entry "name" = VStr (lit "warm_1.json")
    /\ property entry "values" = Sample_requests.nameless.
Proof.
  destruct (cc_filter_fallbacks Sample_requests.nameless_store
              Sample_listing.warm Sample.world0 Sample_requests.nameless)
    as (entry & He & _ & Hn & _ & Hv).
  - reflexivity.
  - split; discriminate.
  - exists entry. split; [exact He|]. split; [|apply Hv; reflexivity].
    vm_compute in He. injection He as <-. reflexivity.
Defined.

(** ** The [POST] branch of the [cc] route: failures and the pathname *)

(** The [POST] branch once the body is read and both fields are truthy. *)
Lemma route_cc_post_truthy (env : Env) (request : Request) (w : World)
  (ccData : Value) :
  action_of request = lit "cc" ->
  req_method request = lit "POST" ->
  req_json request = Ok ccData ->
  readable ccData ->
  truthy (property ccData "name") = true ->
  truthy (property ccData "values") = true ->
  route_cc env request w
  = (name_string <- as_string env (property ccData "name") "replace" ;;
     t <- Date_now env ;;
     blob <- put env
               (lit "cc-filters/" ++ sanitize name_string ++ lit "_"
                  ++ of_N t ++ lit ".json")
               (Json (JSON_stringify ccData)) json_options ;;
     uploadedAt <- new_Date_toISOString env ;;
     ret (Some (jsonResponse
       (VObj [ (lit "success", VBool true);
               (lit "url", VStr (pb_url blob));
               (lit "name", property ccData "name");
               (lit "uploadedAt", VStr uploadedAt) ])
       200 corsHeaders))) w.
Proof.
  intros Ha Hm Hj Hr Hn Hv.
  unfold route_cc; rewrite Ha, Hm; literals; cbv iota.
  unfold bind at 1; unfold await at 1; rewrite Hj.
  rewrite !member_readable by exact Hr.
  unfold bind at 1, ret at 1. rewrite Hn; cbn [negb].
  unfold bind at 1. unfold bind at 1, ret at 1. rewrite Hv; cbn [negb].
  reflexivity.
Qed.

Lemma cc_post_put_fails (env : Env) (request : Request) (w : World)
  (ccData : Value) (name : jsstring) (e : Error) :
  action_of request = lit "cc" ->
  req_method request = lit "POST" ->
  req_json request = Ok ccData ->
  readable ccData ->
  property ccData "name" = VStr name ->
  name <> [] ->
  truthy (property ccData "values") = true ->
  let pathname :=
    lit "cc-filters/" ++ sanitize name ++ lit "_"
      ++ of_N (clock env (ticks w)) ++ lit ".json" in
  store_put env pathname (Json (JSON_stringify ccData)) json_options
  = Throw e ->
  handler env request w
  = (error_response env e,
     logged e
       (after [CallPut pathname (Json (JSON_stringify ccData)) json_options]
          1 w)).
Proof.
  intros Ha Hm Hj Hr Hn Hne Hv pathname Hput.
  apply handler_catches; [now apply post_is_not_options|].
  rewrite try_block_cc by exact Ha. apply or_next_throw.
  rewrite (route_cc_post_truthy env request w ccData) by
    (first [ assumption
           | rewrite Hn; destruct name; [contradiction|reflexivity] ]).
  rewrite Hn; cbn [as_string].
  unfold bind at 1, ret at 1. unfold bind at 1, Date_now at 1.
  unfold bind at 1, put at 1. cbn [calls ticks console record_call].
  fold pathname. rewrite Hput. reflexivity.
Qed.



Lemma unsafe_char_safe (c : code_unit) : unsafe_char c = negb (safe_char c).
Proof. reflexivity. Qed.

Lemma sanitize_safe (name : jsstring) :
  Forall (fun c => safe_char c = true) (sanitize name).
Proof.
  unfold sanitize. induction name as [|c name IH]; cbn [List.map];
    constructor; [|exact IH].
  rewrite unsafe_char_safe.
  destruct (safe_char c) eqn:E; [exact E|reflexivity].
Qed.

Lemma sanitize_fixed (name : jsstring) :
  Forall (fun c => safe_char c = true) name -> sanitize name = name.
Proof.
  unfold sanitize. induction 1 as [|c name Hc _ IH]; cbn [List.map];
    [reflexivity|].
  rewrite unsafe_char_safe, Hc; cbn [negb]. now rewrite IH.
Qed.

Lemma digit_is_safe (c : code_unit) : is_digit c = true -> safe_char c = true.
Proof.
  intros H; unfold safe_char; rewrite H.
  now rewrite !orb_true_r.
Qed.

(** X16: the sanitized name has the length of the name and only
    characters of [[a-zA-Z0-9-_]]; a name of such characters is left as
    it is, so sanitizing twice changes nothing more. *)
Theorem sanitize_properties (name : jsstring) :
  List.length (sanitize name) = List.length name
  /\ Forall (fun c => safe_char c = true) (sanitize name)
  /\ (Forall (fun c => safe_char c = true) name -> sanitize name = name)
  /\ sanitize (sanitize name) = sanitize name.
Proof.
  split; [apply length_map|]. split; [apply sanitize_safe|].
  split; [apply sanitize_fixed|]. apply sanitize_fixed, sanitize_safe.
Qed.

Lemma sanitize_properties_witness :
  sanitize (lit "warm-tone_2") = lit "warm-tone_2".
Proof.
  apply (proj1 (proj2 (proj2 (sanitize_properties (lit "warm-tone_2"))))).
  vm_compute; repeat constructor.
Defined.

(** X17: whatever the string [name] of a [POST ?action=cc], the
    pathname the handler puts is [cc-filters/<stem>.json] with a stem of
    letters, digits, ['-'] and ['_']: it has no ['/'] and no ['.'], so
    the document stays directly under [cc-filters/]. *)
Theorem cc_filter_pathname_is_confined (env : Env) (request : Request)
  (w : World) (ccData : Value) (name : jsstring) :
  action_of request = lit "cc" ->
  req_method request = lit "POST" ->
  req_json request = Ok ccData ->
  readable ccData ->
  property ccData "name" = VStr name ->
  name <> [] ->
  truthy (property ccData "values") = true ->
  exists stem,
    stem <> []
    /\ Forall (fun c => safe_char c = true) stem
    /\ calls (snd (handler env request w))
       = calls w
           ++ [CallPut (lit "cc-filters/" ++ stem ++ lit ".json")
                 (Json (JSON_stringify ccData)) json_options].
Proof.
  intros Ha Hm Hj Hr Hn Hne Hv.
  exists (sanitize name ++ lit "_" ++ of_N (clock env (ticks w))).
  split; [|split].
  - destruct name; [contradiction|discriminate].
  - apply Forall_app; split; [apply sanitize_safe|].
    apply Forall_app; split; [repeat constructor|].
    destruct (of_N_digits (clock env (ticks w))) as [_ Hd].
    eapply Forall_impl; [|exact Hd]. intros c; apply digit_is_safe.
  - rewrite <- !app_assoc.
    destruct (store_put env
                (lit "cc-filters/" ++ sanitize name ++ lit "_"
                   ++ of_N (clock env (ticks w)) ++ lit ".json")
                (Json (JSON_stringify ccData)) json_options)
      as [blob|e] eqn:Hput.
    + rewrite (cc_post_stores env request w ccData name blob) by assumption.
      reflexivity.
    + rewrite (cc_post_put_fails env request w ccData name e) by assumption.
      reflexivity.
Qed.

Lemma cc_filter_pathname_is_confined_witness :
  exists stem,
    stem <> []
    /\ Forall (fun c => safe_char c = true) stem
    /\ calls (snd (handler Sample.quiet
                     (Sample.with_json "POST" "cc"
                        Sample_documents.my_filter) Sample.world0))
       = calls Sample.world0
           ++ [CallPut (lit "cc-filters/" ++ stem ++ lit ".json")
                 (Json (JSON_stringify Sample_documents.my_filter))
                 json_options].
Proof.
  apply (cc_filter_pathname_is_confined Sample.quiet
           (Sample.with_json "POST" "cc" Sample_documents.my_filter)
           Sample.world0 Sample_documents.my_filter (lit "My Filter!"));
    try reflexivity.
  - split; discriminate.
  - vm_compute; discriminate.
Defined.

(** X18: the matcher of the image pattern accepts exactly the strings
    [data:image/<type>;base64,<payload>] with a non-empty [type] of
    word characters and a non-empty [payload] free of line terminators,
    and captures the payload; a string has at most one such reading. *)
Theorem match_data_url_captures (image : jsstring) :
  (forall payload,
     match_data_url image = Some payload
     <-> exists type, data_url image type payload)
  /\ (match_data_url image = None
      <-> forall type payload, ~ data_url image type payload)
  /\ (forall type type' payload payload',
        data_url image type payload -> data_url image type' payload' ->
        type = type' /\ payload = payload').
Proof.
  split; [|split].
  - intros payload; apply match_data_url_spec.
  - split.
    + intros Hn type payload Hd.
      assert (E : match_data_url image = Some payload)
        by (apply match_data_url_spec; now exists type).
      congruence.
    + intros Hno. destruct (match_data_url image) as [payload|] eqn:E;
        [|reflexivity].
      apply match_data_url_spec in E. destruct E as (type & E).
      now elim (Hno type payload).
  - intros type type' payload payload' H H'.
    assert (E : match_data_url image = Some payload)
      by (apply match_data_url_spec; now exists type).
    assert (E' : match_data_url image = Some payload')
      by (apply match_data_url_spec; now exists type').
    assert (payload = payload') by congruence. subst payload'.
    split; [|reflexivity].
    destruct H as (Hi & _), H' as (Hi' & _). rewrite Hi in Hi'.
    apply app_inv_head in Hi'. rewrite !app_assoc in Hi'.
    apply app_inv_tail in Hi'. now apply app_inv_tail in Hi'.
Qed.

Lemma match_data_url_captures_witness :
  match_data_url (lit "data:image/png;base64,iVBORw0KGgo=")
  = Some (lit "iVBORw0KGgo=").
Proof.
  apply (proj1 (match_data_url_captures
                  (lit "data:image/png;base64,iVBORw0KGgo="))).
  exists (lit "png").
  repeat split; try discriminate; repeat constructor.
Defined.
